(** * Certificate registry and POAP verification: a shallow embedding

    The development follows the repository file by file:

    - [Registry]  smart_contracts/certificate_registry/contract.py
    - [SHA256]    the digest used by scripts/gen_cert.py and scripts/mint.py
    - [GenCert]   scripts/gen_cert.py  (verify_certificate_hash)
    - [Mint]      scripts/mint.py, scripts/mint_nft.py  (mint_nft)
    - [Verify]    verify.py  (POAPVerifier and the two HTTP routes)
    - [VerifyNote]      verify.py  (extract_note_from_creation_tx)
    - [VerifyNft]       scripts/verify_nft.py  (POAPVerifier)
    - [GenCertDetails]  scripts/gen_cert.py  (the reader and the displayed check)
    - [NftGen]          scripts/nft_gen.py  (mint, transfer and batch)

    Python [bytes] values are lists of [Byte.byte]; the contract's BoxMap is a
    [gmap] from byte strings to byte strings; an [assert] that fails and an
    exception that is raised are explicit outcomes. *)

From Stdlib Require Import ZArith List Strings.String Strings.Ascii Strings.Byte DecimalString.
From stdpp Require Import base decidable countable option list gmap strings.

Import ListNotations.
Local Open Scope string_scope.

(** ** Byte strings *)

Abbreviation Bytes := (list Byte.byte).

#[global] Instance byte_eq_dec : EqDecision Byte.byte := Byte.byte_eq_dec.

#[global] Program Instance byte_countable : Countable Byte.byte :=
  inj_countable Byte.to_N Byte.of_N _.
Next Obligation. intros b. apply Byte.of_to_N. Qed.

(** The empty byte string, the default of every lookup of the contract. *)
Definition empty_bytes : Bytes := [].

(** * The registry contract *)

Module Registry.

(** [self.certificates = BoxMap(Bytes, Bytes)] *)
Record State := mkState { certificates : gmap Bytes Bytes }.

(** The state built by [__init__]: no box exists. *)
Definition init : State := mkState ∅.

(** The part of the transaction the contract reads: [Txn.sender.bytes]. *)
Record Txn := mkTxn { sender : Bytes }.

(** [Txn.sender] is an account: its [bytes] are the 32 bytes of a public key. *)
Definition is_address (b : Bytes) : Prop := length b = 32%nat.

#[global] Instance is_address_dec b : Decision (is_address b).
Proof. unfold is_address. apply _. Defined.

(** An ABI call either returns or fails an [assert] with its message. *)
Inductive outcome (A : Type) : Type :=
| Ok (a : A)
| Reject (msg : string).
Arguments Ok {A} a.
Arguments Reject {A} msg.

(** Contract code threads the box storage and may stop at an assertion; the
    storage at the point where it stopped is kept, so that "nothing was
    written before the rejection" is a statement to prove. *)
Definition M (A : Type) : Type := State → outcome A * State.

Definition ret {A} (a : A) : M A := λ s, (Ok a, s).

Definition bind {A B} (m : M A) (k : A → M B) : M B :=
  λ s, match m s with
       | (Ok a, s') => k a s'
       | (Reject msg, s') => (Reject msg, s')
       end.

Notation "'do' x <- m ; k" := (bind m (λ x, k))
  (at level 10, x name, m at level 100, k at level 200).
Notation "'check' m ; k" := (bind m (λ _, k))
  (at level 10, m at level 100, k at level 200).

(** [self.certificates.get(key, default=d)] *)
Definition box_get (key d : Bytes) : M Bytes :=
  λ s, (Ok (default d (certificates s !! key)), s).

(** [self.certificates[key] = value] *)
Definition box_set (key value : Bytes) : M unit :=
  λ s, (Ok tt, mkState (<[key := value]> (certificates s))).

(** [assert cond, msg] *)
Definition assert_ (cond : bool) (msg : string) : M unit :=
  λ s, if cond then (Ok tt, s) else (Reject msg, s).

Section Methods.
Variable txn : Txn.

Definition register_certificate (cert_hash : Bytes) : M unit :=
  do existing_owner <- box_get cert_hash empty_bytes;
  check assert_ (bool_decide (existing_owner = empty_bytes))
                "Certificate hash is already registered.";
  box_set cert_hash (sender txn).

Definition verify_certificate (cert_hash : Bytes) : M Bytes :=
  do owner <- box_get cert_hash empty_bytes;
  ret owner.

Definition transfer_certificate (cert_hash new_owner : Bytes) : M unit :=
  do current_owner <- box_get cert_hash empty_bytes;
  check assert_ (negb (bool_decide (current_owner = empty_bytes)))
                "Certificate not found or not registered.";
  check assert_ (bool_decide (current_owner = sender txn))
                "Permission denied: Only the current owner can transfer.";
  box_set cert_hash new_owner.
End Methods.

(** The three ABI entry points as one call type. *)
Inductive call : Type :=
| Register (cert_hash : Bytes)
| Verify (cert_hash : Bytes)
| Transfer (cert_hash new_owner : Bytes).

(** What a call returns: nothing, or the bytes of [verify_certificate]. *)
Definition run (txn : Txn) (c : call) : M (option Bytes) :=
  match c with
  | Register h => check register_certificate txn h; ret None
  | Verify h => do o <- verify_certificate h; ret (Some o)
  | Transfer h n => check transfer_certificate txn h n; ret None
  end.

Definition rejects {A} (r : outcome A * State) : Prop :=
  ∃ msg, r.1 = Reject msg.

(** The ledger commits the storage of an approved call and discards the
    storage of a rejected one. *)
Definition commit {A} (s : State) (r : outcome A * State) : State :=
  match r with
  | (Ok _, s') => s'
  | (Reject _, _) => s
  end.

Definition apply_call (txn : Txn) (c : call) (s : State) : State :=
  commit s (run txn c s).

(** States the contract can be in: from [init], by calls of real accounts. *)
Inductive reachable : State → Prop :=
| reach_init : reachable init
| reach_call s txn c :
    reachable s → is_address (sender txn) → reachable (apply_call txn c s).

End Registry.

(** * Text, hexadecimal and SHA-256

    A Python [str] is represented by its UTF-8 encoding, so that
    [s.encode('utf-8')] is the passage from [string] to [Bytes], [+] on
    strings is [++], and [==] and [in] keep their meaning. *)

Module Text.

(** [s.encode('utf-8')] and [s.encode()] *)
Definition encode (s : string) : Bytes := list_byte_of_string s.

Definition byte_of_Z (z : Z) : Byte.byte :=
  default Byte.x00 (Byte.of_N (Z.to_N (z mod 256))).

Definition Z_of_byte (b : Byte.byte) : Z := Z.of_N (Byte.to_N b).

(** One lowercase hexadecimal digit, as [hexlify] and [hexdigest] print it. *)
Definition hex_digit (z : Z) : ascii :=
  if (z <? 10)%Z then ascii_of_N (Z.to_N (48 + z))
  else ascii_of_N (Z.to_N (87 + z)).

(** [binascii.hexlify(b).decode()] *)
Fixpoint hexlify (b : Bytes) : string :=
  match b with
  | [] => EmptyString
  | x :: rest =>
      String (hex_digit (Z_of_byte x / 16))
        (String (hex_digit (Z_of_byte x mod 16)) (hexlify rest))
  end.

(** The value of a hexadecimal digit of either case, if it is one. *)
Definition hex_value (c : ascii) : option Z :=
  let n := Z.of_N (N_of_ascii c) in
  if ((48 <=? n) && (n <=? 57))%Z then Some (n - 48)%Z
  else if ((97 <=? n) && (n <=? 102))%Z then Some (n - 87)%Z
  else if ((65 <=? n) && (n <=? 70))%Z then Some (n - 55)%Z
  else None.

(** [binascii.unhexlify(s)]: [None] stands for [binascii.Error], raised on
    an odd number of digits or on a character that is not a digit. *)
Fixpoint unhexlify (s : string) : option Bytes :=
  match s with
  | EmptyString => Some []
  | String _ EmptyString => None
  | String hi (String lo rest) =>
      match hex_value hi, hex_value lo, unhexlify rest with
      | Some h, Some l, Some bs => Some (byte_of_Z (16 * h + l) :: bs)
      | _, _, _ => None
      end
  end.

End Text.

Module SHA256.
Import Text.
Local Open Scope Z_scope.

Definition mask32 : Z := 0xffffffff.

Definition add32 (a b : Z) : Z := (a + b) mod 2 ^ 32.

Definition rotr (n x : Z) : Z :=
  Z.land (Z.lor (Z.shiftr x n) (Z.shiftl x (32 - n))) mask32.

Definition shr (n x : Z) : Z := Z.shiftr x n.

Definition not32 (x : Z) : Z := Z.lxor x mask32.

Definition Ch (x y z : Z) : Z := Z.lxor (Z.land x y) (Z.land (not32 x) z).

Definition Maj (x y z : Z) : Z :=
  Z.lxor (Z.lxor (Z.land x y) (Z.land x z)) (Z.land y z).

Definition Sigma0 (x : Z) : Z := Z.lxor (Z.lxor (rotr 2 x) (rotr 13 x)) (rotr 22 x).
Definition Sigma1 (x : Z) : Z := Z.lxor (Z.lxor (rotr 6 x) (rotr 11 x)) (rotr 25 x).
Definition sigma0 (x : Z) : Z := Z.lxor (Z.lxor (rotr 7 x) (rotr 18 x)) (shr 3 x).
Definition sigma1 (x : Z) : Z := Z.lxor (Z.lxor (rotr 17 x) (rotr 19 x)) (shr 10 x).

(** The constants of the standard are the first 32 bits of the fractional
    parts of the cube roots ([K]) and of the square roots ([H0]) of the first
    primes. *)
Definition is_prime (n : Z) : bool :=
  (1 <? n) && forallb (λ d, negb (n mod Z.of_nat d =? 0)) (seq 2 (Z.to_nat n - 2)).

Definition primes (count : nat) : list Z :=
  firstn count (filter is_prime (map Z.of_nat (seq 2 400))).

(** The largest [r] below [2 ^ bits] with [r ^ 3 <= n], bit by bit. *)
Fixpoint cube_root_from (bits : nat) (n r : Z) : Z :=
  match bits with
  | O => r
  | S bits' =>
      let c := r + 2 ^ Z.of_nat bits' in
      cube_root_from bits' n (if c * c * c <=? n then c else r)
  end.

Definition cube_root (n : Z) : Z := cube_root_from 64 n 0.

Definition frac32_cube_root (p : Z) : Z := cube_root (p * 2 ^ 96) mod 2 ^ 32.
Definition frac32_square_root (p : Z) : Z := Z.sqrt (p * 2 ^ 64) mod 2 ^ 32.

Definition K : list Z := Eval vm_compute in map frac32_cube_root (primes 64).

Definition H0 : list Z := Eval vm_compute in map frac32_square_root (primes 8).

(** Big-endian bytes of the low [8 * n] bits of [z]. *)
Fixpoint be_bytes (n : nat) (z : Z) : Bytes :=
  match n with
  | O => []
  | S n' => byte_of_Z (Z.shiftr z (8 * Z.of_nat n')) :: be_bytes n' z
  end.

(** The message, a [1] bit, zeros up to 56 modulo 64, and the bit length. *)
Definition pad (msg : Bytes) : Bytes :=
  let len := Z.of_nat (length msg) in
  let zeros := Z.to_nat ((55 - len) mod 64) in
  msg ++ [Byte.x80] ++ repeat Byte.x00 zeros ++ be_bytes 8 (8 * len).

(** The big-endian 32-bit words of a byte string. *)
Fixpoint words (fuel : nat) (b : Bytes) : list Z :=
  match fuel, b with
  | S fuel', b0 :: b1 :: b2 :: b3 :: rest =>
      (Z_of_byte b0 * 2 ^ 24 + Z_of_byte b1 * 2 ^ 16
       + Z_of_byte b2 * 2 ^ 8 + Z_of_byte b3) :: words fuel' rest
  | _, _ => []
  end.

Definition word_at (w : list Z) (i : nat) : Z := nth i w 0.

(** The message schedule: [n] more words after the ones in [w]. *)
Fixpoint schedule (n : nat) (w : list Z) : list Z :=
  match n with
  | O => w
  | S n' =>
      let t := length w in
      let wt := add32 (add32 (sigma1 (word_at w (t - 2))) (word_at w (t - 7)))
                      (add32 (sigma0 (word_at w (t - 15))) (word_at w (t - 16))) in
      schedule n' (w ++ [wt])
  end.

Record regs := mkRegs { ra : Z; rb : Z; rc : Z; rd : Z; re : Z; rf : Z; rg : Z; rh : Z }.

Definition round (r : regs) (kw : Z * Z) : regs :=
  let t1 := add32 (add32 (add32 (rh r) (Sigma1 (re r))) (Ch (re r) (rf r) (rg r)))
                  (add32 kw.1 kw.2) in
  let t2 := add32 (Sigma0 (ra r)) (Maj (ra r) (rb r) (rc r)) in
  mkRegs (add32 t1 t2) (ra r) (rb r) (rc r) (add32 (rd r) t1) (re r) (rf r) (rg r).

Definition regs_of (h : list Z) : regs :=
  mkRegs (word_at h 0) (word_at h 1) (word_at h 2) (word_at h 3)
         (word_at h 4) (word_at h 5) (word_at h 6) (word_at h 7).

Definition list_of (r : regs) : list Z :=
  [ra r; rb r; rc r; rd r; re r; rf r; rg r; rh r].

(** One 16-word block folded into the chaining value. *)
Definition compress (h : list Z) (block : list Z) : list Z :=
  let w := schedule 48 block in
  let r := fold_left round (combine K w) (regs_of h) in
  map (λ p : Z * Z, add32 p.1 p.2) (combine h (list_of r)).

Fixpoint blocks (fuel : nat) (h : list Z) (w : list Z) : list Z :=
  match fuel with
  | O => h
  | S fuel' =>
      match w with
      | [] => h
      | _ => blocks fuel' (compress h (firstn 16 w)) (skipn 16 w)
      end
  end.

(** [hashlib.sha256(msg).digest()] *)
Definition digest (msg : Bytes) : Bytes :=
  let p := pad msg in
  let w := words (length p) p in
  flat_map (be_bytes 4) (blocks (length w) H0 w).

(** [hashlib.sha256(msg).hexdigest()] *)
Definition hexdigest (msg : Bytes) : string := hexlify (digest msg).

End SHA256.

(** * Python values, dictionaries and exceptions *)

Module Py.

(** The values a JSON object of the ledger API or a certificate holds. *)
Inductive value : Type :=
| PNone
| PBool (b : bool)
| PInt (z : Z)
| PStr (s : string).

#[global] Instance value_eq_dec : EqDecision value.
Proof. solve_decision. Defined.

(** A [dict] with string keys. *)
Abbreviation dict := (gmap string value).

Inductive exn : Type :=
| KeyError (key : string)
| TypeError (msg : string)
| BinasciiError
| HTTPError (msg : string).

(** A Python call returns a value or raises. *)
Inductive result (A : Type) : Type :=
| Return (a : A)
| Raise (e : exn).
Arguments Return {A} a.
Arguments Raise {A} e.

Definition bind {A B} (m : result A) (k : A → result B) : result B :=
  match m with
  | Return a => k a
  | Raise e => Raise e
  end.

Notation "'let*' x := m 'in' k" := (bind m (λ x, k))
  (at level 10, x name, m at level 100, k at level 200).

(** [d[key]] *)
Definition getitem (d : dict) (key : string) : result value :=
  match d !! key with
  | Some v => Return v
  | None => Raise (KeyError key)
  end.

(** [d.get(key)] and [d.get(key, dflt)] *)
Definition get (d : dict) (key : string) : value := default PNone (d !! key).
Definition get_or (d : dict) (key : string) (dflt : value) : value :=
  default dflt (d !! key).

(** [a == b]: [bool] is a subtype of [int], so [True == 1] holds. *)
Definition int_of_bool (b : bool) : Z := if b then 1%Z else 0%Z.

Definition py_eq (a b : value) : bool :=
  match a, b with
  | PNone, PNone => true
  | PBool x, PBool y => bool_decide (x = y)
  | PInt x, PInt y => bool_decide (x = y)
  | PBool x, PInt y | PInt y, PBool x => bool_decide (int_of_bool x = y)
  | PStr x, PStr y => bool_decide (x = y)
  | _, _ => false
  end.

(** [v == z] for an integer [z], as a proposition: [v] is that integer or
    the boolean that counts as it. *)
Definition equals_int (v : value) (z : Z) : Prop :=
  v = PInt z ∨ ∃ b, v = PBool b ∧ int_of_bool b = z.

(** Truth value, as [not v] and [if v] test it. *)
Definition truthy (v : value) : bool :=
  match v with
  | PNone => false
  | PBool b => b
  | PInt z => negb (bool_decide (z = 0%Z))
  | PStr s => negb (bool_decide (s = EmptyString))
  end.

(** [str(v)], which is what a replacement field of an f-string inserts. *)
Definition str (v : value) : string :=
  match v with
  | PNone => "None"
  | PBool true => "True"
  | PBool false => "False"
  | PInt z => DecimalString.NilZero.string_of_int (Z.to_int z)
  | PStr s => s
  end.

(** [sub in s] on strings *)
Fixpoint contains (sub s : string) : bool :=
  String.prefix sub s ||
  match s with
  | EmptyString => false
  | String _ rest => contains sub rest
  end.

(** [sub in v]: only a string can be searched, anything else of this value
    type is not iterable. *)
Definition py_in (sub : string) (v : value) : result bool :=
  match v with
  | PStr s => Return (contains sub s)
  | _ => Raise (TypeError "argument is not iterable")
  end.

End Py.

(** * scripts/gen_cert.py *)

Module GenCert.
Import Text Py.

(** The keys [verify_certificate_hash] reads, in the order it reads them. *)
Definition digest_keys : list string :=
  ["event"; "organizer"; "date"; "recipient_name"; "recipient_address"].

(** The f-string of [verify_certificate_hash]: the five fields in order,
    separated by a vertical bar. A missing key raises [KeyError]. *)
Definition hash_input (certificate_details : dict) : result string :=
  let* event := getitem certificate_details "event" in
  let* organizer := getitem certificate_details "organizer" in
  let* date := getitem certificate_details "date" in
  let* recipient_name := getitem certificate_details "recipient_name" in
  let* recipient_address := getitem certificate_details "recipient_address" in
  Return (str event ++ "|" ++ str organizer ++ "|" ++ str date ++ "|"
          ++ str recipient_name ++ "|" ++ str recipient_address).

Definition calculated_hash (certificate_details : dict) : result string :=
  let* input := hash_input certificate_details in
  Return (SHA256.hexdigest (encode input)).

Definition verify_certificate_hash
    (certificate_details : dict) (certificate_hash : value) : result bool :=
  if negb (truthy certificate_hash) || bool_decide (certificate_details = ∅)
  then Return false
  else
    let* calculated := calculated_hash certificate_details in
    Return (py_eq (PStr calculated) certificate_hash).

(** The digest as the specification words it: SHA-256 of the five fields
    joined by the delimiter, printed in hexadecimal. *)
Definition spec_digest (event organizer date recipient_name recipient_address : string)
  : string :=
  SHA256.hexdigest
    (encode (event ++ "|" ++ organizer ++ "|" ++ date ++ "|"
             ++ recipient_name ++ "|" ++ recipient_address)).

End GenCert.

(** * scripts/mint.py and scripts/mint_nft.py *)

Module Mint.
Import Text Py.

(** The arguments the scripts pass to [AssetConfigTxn]. The suggested
    parameters, the signature and the submission belong to the SDK. *)
Record AssetConfigTxn := mkAssetConfigTxn {
  sender : string;
  total : Z;
  default_frozen : bool;
  unit_name : string;
  asset_name : string;
  manager : string;
  reserve : string;
  freeze : string;
  clawback : string;
  url : string;
  metadata_hash : Bytes;
  note : Bytes;
  decimals : Z
}.

(** The request body of the [/mint] route of mint.py. *)
Record NFTPayload := mkNFTPayload {
  event : string;
  organizer : string;
  date : string;
  certificate_hash : string;
  email : string
}.

Section Minting.
(** The address derived from the deployer mnemonic of the environment. *)
Variable deployer_address : string.
(** [json.dumps] of the standard library and [.json()] of pydantic. *)
Variable json_dumps : dict → string.
Variable payload_json : NFTPayload → string.

(** mint_nft.py, [mint_nft]: the transaction built from the metadata. *)
Definition mint_nft (nft_metadata : dict) : result AssetConfigTxn :=
  let* cert_hash_hex := getitem nft_metadata "certificate_hash" in
  let* metadata_hash_bytes :=
    match cert_hash_hex with
    | PStr hex =>
        match unhexlify hex with
        | Some b => Return b
        | None => Raise BinasciiError
        end
    | _ => Raise (TypeError "argument should be bytes, buffer or ASCII string")
    end in
  let note := encode (json_dumps nft_metadata) in
  Return {| sender := deployer_address;
            total := 1;
            default_frozen := false;
            unit_name := "POAP";
            asset_name := "POAP-RiseHack25-RDS";
            manager := EmptyString;
            reserve := EmptyString;
            freeze := EmptyString;
            clawback := EmptyString;
            url := "https://yourapp.example/metadata.json";
            metadata_hash := metadata_hash_bytes;
            note := note;
            decimals := 0 |}.

(** mint.py, [mint_nft]: the transaction built from the request body. *)
Definition mint_nft_api (nft_payload : NFTPayload) : AssetConfigTxn :=
  let digest := SHA256.digest (encode (certificate_hash nft_payload)) in
  let note := encode (payload_json nft_payload) in
  {| sender := deployer_address;
     total := 1;
     default_frozen := false;
     unit_name := "POAP";
     asset_name := "POAP-" ++ event nft_payload;
     manager := EmptyString;
     reserve := EmptyString;
     freeze := EmptyString;
     clawback := EmptyString;
     url := "https://yourapp.example/metadata.json";
     metadata_hash := digest;
     note := note;
     decimals := 0 |}.
End Minting.

(** The digest a hexadecimal [certificate_hash] denotes. *)
Definition denoted_digest (certificate_hash : string) : option Bytes :=
  unhexlify certificate_hash.

End Mint.

(** * verify.py *)

Module Verify.
Import Text Py.

(** The JSON object [asset_info] returns: the ["params"] object, if the
    key is there. The other keys are not read. *)
Record AssetInfo := mkAssetInfo { params_of : option dict }.

(** [verification_results], a dict with four keys in this order. *)
Record Checks := mkChecks {
  is_nft : bool;
  correct_unit_name : bool;
  correct_name_format : bool;
  correct_creator : bool
}.

(** [verification_results.values()] *)
Definition values (r : Checks) : list bool :=
  [is_nft r; correct_unit_name r; correct_name_format r; correct_creator r].

(** [sum] of booleans counts the true ones. *)
Definition sum (l : list bool) : Z :=
  fold_left (λ acc b, (acc + int_of_bool b)%Z) l 0%Z.

(** The tail shared by [comprehensive_verification] and [verify_poap]. *)
Definition overall_valid (verification_results : Checks) : bool :=
  let passed_checks := sum (values verification_results) in
  let total_checks := Z.of_nat (length (values verification_results)) in
  bool_decide (passed_checks = total_checks).

(** What [comprehensive_verification] returns. *)
Record Report (Note : Type) := mkReport {
  asset_id : Z;
  asset_info : dict;
  verification_results : Checks;
  note_content : Note;
  report_valid : bool
}.
Arguments mkReport {Note}.
Arguments asset_id {Note}.
Arguments asset_info {Note}.
Arguments verification_results {Note}.
Arguments note_content {Note}.
Arguments report_valid {Note}.

(** What the [/verify] route returns: the error object or the report
    without the asset parameters. *)
Inductive Response (Note : Type) : Type :=
| ErrorResponse (asset_id : Z) (error : string)
| VerifyResponse (asset_id : Z) (verification_results : Checks)
                 (note_content : Note) (overall_valid : bool).
Arguments ErrorResponse {Note}.
Arguments VerifyResponse {Note}.

(** The two ledger clients. A call that fails raises. *)
Record Clients (Note : Type) := mkClients {
  algod_asset_info : Z → result AssetInfo;
  indexer_client : option (Z → result AssetInfo);
  (** [extract_note_from_creation_tx]: it reads the indexer and catches
      what the search and the decoding raise. *)
  extract_note_from_creation_tx : Z → Note
}.
Arguments algod_asset_info {Note}.
Arguments indexer_client {Note}.
Arguments extract_note_from_creation_tx {Note}.

Section Verifier.
Context {Note : Type}.
(** The address derived from the deployer mnemonic of the environment. *)
Variable deployer_address : string.
Variable clients : Clients Note.

Definition get_asset_info (asset_id : Z) : result AssetInfo :=
  algod_asset_info clients asset_id.

Definition verify_poap_structure (info : AssetInfo) : result (Checks * dict) :=
  let params := default ∅ (params_of info) in
  let* name_ok := py_in "POAP" (get_or params "name" (PStr EmptyString)) in
  Return
    ({| is_nft := py_eq (get params "total") (PInt 1)
                  && py_eq (get params "decimals") (PInt 0);
        correct_unit_name := py_eq (get params "unit-name") (PStr "POAP");
        correct_name_format := name_ok;
        correct_creator := py_eq (get params "creator") (PStr deployer_address) |},
     params).

Definition comprehensive_verification (asset_id : Z) : result (Report Note) :=
  let* info := get_asset_info asset_id in
  let* rp := verify_poap_structure info in
  let note := extract_note_from_creation_tx clients asset_id in
  Return (mkReport asset_id rp.2 rp.1 note (overall_valid rp.1)).

(** [POST /verify] *)
Definition verify_poap (request_asset_id : Z) : result (Response Note) :=
  let asset_id := request_asset_id in
  let not_found := ErrorResponse asset_id "asset does not exist on TestNet" in
  let continue (info : AssetInfo) : result (Response Note) :=
    let* rp := verify_poap_structure info in
    let note := extract_note_from_creation_tx clients asset_id in
    Return (VerifyResponse asset_id rp.1 note (overall_valid rp.1)) in
  match algod_asset_info clients asset_id with
  | Return info => continue info
  | Raise _ =>
      match indexer_client clients with
      | Some indexer_asset_info =>
          match indexer_asset_info asset_id with
          | Return info => continue info
          | Raise _ => Return not_found
          end
      | None => Return not_found
      end
  end.

(** [POST /verify-multiple]: the loop appends one report per identifier;
    an exception leaves the loop and the function. *)
Fixpoint verify_multiple_poaps (asset_ids : list Z) : result (list (Report Note)) :=
  match asset_ids with
  | [] => Return []
  | asset_id :: rest =>
      let* r := comprehensive_verification asset_id in
      let* results := verify_multiple_poaps rest in
      Return (r :: results)
  end.
End Verifier.

End Verify.

(** * Concrete data for the examples *)

Module Samples.
Import Py.

(** A certificate hash and three accounts. *)
Definition h1 : Bytes := repeat Byte.xc3 32.
Definition alice : Registry.Txn := Registry.mkTxn (repeat Byte.x0a 32).
Definition bob : Registry.Txn := Registry.mkTxn (repeat Byte.x0b 32).
Definition carol : Registry.Txn := Registry.mkTxn (repeat Byte.x0c 32).

(** [h1] registered by Alice. *)
Definition registered : Registry.State :=
  Registry.apply_call alice (Registry.Register h1) Registry.init.

(** [h1] registered by Alice, then transferred by her to the empty string. *)
Definition orphaned : Registry.State :=
  Registry.apply_call alice (Registry.Transfer h1 empty_bytes) registered.

(** A certificate of the event the scripts use as their example. *)
Definition sample_details : dict :=
  <["event" := PStr "Rise Hackathon 2025"]>
  (<["organizer" := PStr "University Institute of Technology"]>
  (<["date" := PStr "2025-09-16"]>
  (<["recipient_name" := PStr "Asha Rao"]>
  (<["recipient_address" := PStr "ADDR"]> ∅)))).

(** The metadata of the example at the end of mint_nft.py, and the same
    certificate as a request body of mint.py. *)
Definition sample_hash : string :=
  "abcdef1234567890abcdef1234567890abcdef1234567890abcdef1234567890".

Definition sample_metadata : dict :=
  <["event" := PStr "Rise Hackathon 2025"]>
  (<["organizer" := PStr "University Institute of Technology"]>
  (<["date" := PStr "2025-09-16"]>
  (<["certificate_hash" := PStr sample_hash]> ∅))).

Definition sample_payload : Mint.NFTPayload :=
  {| Mint.event := "Rise Hackathon 2025";
     Mint.organizer := "University Institute of Technology";
     Mint.date := "2025-09-16";
     Mint.certificate_hash := sample_hash;
     Mint.email := "user@example.org" |}.

(** The asset parameters of a certificate minted by the scripts. *)
Definition minted_params (creator : string) : dict :=
  <["total" := PInt 1]>
  (<["decimals" := PInt 0]>
  (<["unit-name" := PStr "POAP"]>
  (<["name" := PStr "POAP-RiseHack25-RDS"]>
  (<["creator" := PStr creator]> ∅)))).

(** A ledger that holds one asset, [745899830], and no other: algod knows
    its parameters, the indexer wraps them in an ["asset"] object. *)
Definition one_asset_ledger (creator : string) : Verify.Clients value :=
  {| Verify.algod_asset_info := λ asset_id,
       if bool_decide (asset_id = 745899830%Z)
       then Return (Verify.mkAssetInfo (Some (minted_params creator)))
       else Raise (HTTPError "asset does not exist");
     Verify.indexer_client := Some (λ asset_id,
       if bool_decide (asset_id = 745899830%Z)
       then Return (Verify.mkAssetInfo None)
       else Raise (HTTPError "no asset found for asset-id"));
     Verify.extract_note_from_creation_tx := λ _, PNone |}.

End Samples.

(** * Runs of the registry contract *)

Module RegistryRuns.
Import Registry.

(** The hash a call names. *)
Definition target (c : call) : Bytes :=
  match c with
  | Register h => h
  | Verify h => h
  | Transfer h _ => h
  end.

(** A sequence of transactions, applied in order. *)
Fixpoint apply_calls (cs : list (Txn * call)) (s : State) : State :=
  match cs with
  | [] => s
  | (txn, c) :: rest => apply_calls rest (apply_call txn c s)
  end.

End RegistryRuns.

(** * Shapes of hexadecimal text *)

Module Hex.

(** A digit or a lowercase letter from [a] to [f]. *)
Definition is_lower_hex_digit (c : ascii) : bool :=
  let n := Z.of_N (N_of_ascii c) in
  ((48 <=? n) && (n <=? 57) || (97 <=? n) && (n <=? 102))%Z.

Fixpoint is_lower_hex (s : string) : bool :=
  match s with
  | EmptyString => true
  | String c rest => is_lower_hex_digit c && is_lower_hex rest
  end.

(** Hexadecimal digits of either case, as [unhexlify] accepts them. *)
Fixpoint is_hex (s : string) : bool :=
  match s with
  | EmptyString => true
  | String c rest => bool_decide (is_Some (Text.hex_value c)) && is_hex rest
  end.

(** No vertical bar in the text. *)
Fixpoint bar_free (s : string) : bool :=
  match s with
  | EmptyString => true
  | String c rest => negb (bool_decide (c = "|"%char)) && bar_free rest
  end.

End Hex.

(** * Responses of the ledger API and the codecs of the standard library *)

Module Api.
Import Py.

(** The JSON object [account_info] returns, as far as the scripts read it:
    the ["amount"] and the list under ["assets"], when the keys are there. *)
Record AccountInfo := mkAccountInfo {
  amount : option value;
  assets : option (list dict)
}.

(** What [json.loads] returns: an object, or a JSON value of another kind
    (of a type [J] that the scripts only pass on). *)
Inductive parsed (J : Type) : Type :=
| Obj (d : dict)
| NonObj (j : J).
Arguments Obj {J} d.
Arguments NonObj {J} j.

(** The library calls the readers make on what the ledger returns:
    [base64.b64decode] (also under the name [encoding.decode_from_base64]),
    [bytes.decode('utf-8')] ([None] for [UnicodeDecodeError]),
    [bytes.decode('utf-8', errors='ignore')], [json.loads] ([None] for
    [JSONDecodeError]) and [str] of an exception. *)
Record Codec (J : Type) := mkCodec {
  b64decode : value → result Bytes;
  decode_utf8 : Bytes → option string;
  decode_utf8_ignore : Bytes → string;
  json_loads : string → option (parsed J);
  exn_str : exn → string
}.
Arguments b64decode {J}.
Arguments decode_utf8 {J}.
Arguments decode_utf8_ignore {J}.
Arguments json_loads {J}.
Arguments exn_str {J}.

(** What a reader makes of a note: nothing, the parsed JSON, or a text (the
    raw note, or a message in brackets). *)
Inductive note_content (J : Type) : Type :=
| NoteNone
| NoteJson (j : parsed J)
| NoteText (s : string).
Arguments NoteNone {J}.
Arguments NoteJson {J} j.
Arguments NoteText {J} s.

(** [tx.get('tx-type') == 'acfg' and tx.get('created-asset-index') == asset_id] *)
Definition is_creation_of (asset_id : Z) (tx : dict) : bool :=
  py_eq (get tx "tx-type") (PStr "acfg")
  && py_eq (get tx "created-asset-index") (PInt asset_id).

End Api.

(** * verify.py: the note of the creation transaction *)

Module VerifyNote.
Import Py Api.

Section Note.
Context {J : Type}.
Variable codec : Codec J.
(** [self.indexer_client]: the search by asset and limit, giving the list
    under ["transactions"] when the response has the key. *)
Variable indexer_client : option (Z → nat → result (option (list dict))).

Definition get_asset_transactions (asset_id : Z) (limit : nat)
  : result (list dict) :=
  match indexer_client with
  | None => Return []
  | Some search_asset_transactions =>
      let* response := search_asset_transactions asset_id limit in
      Return (default [] response)
  end.

(** The body of the loop once the creation transaction is found. *)
Definition note_of_creation_tx (tx : dict) : note_content J :=
  let note_b64 := get tx "note" in
  if negb (truthy note_b64) then NoteNone
  else
    match b64decode codec note_b64 with
    | Raise e => NoteText ("[Invalid note field: " ++ exn_str codec e ++ "]")
    | Return note_bytes =>
        if bool_decide (note_bytes = []) then NoteNone
        else
          match decode_utf8 codec note_bytes with
          | None => NoteText (decode_utf8_ignore codec note_bytes)
          | Some text =>
              match json_loads codec text with
              | Some j => NoteJson j
              | None => NoteText (decode_utf8_ignore codec note_bytes)
              end
          end
    end.

(** The loop: the first creation transaction ends it. *)
Fixpoint scan_transactions (asset_id : Z) (transactions : list dict)
  : note_content J :=
  match transactions with
  | [] => NoteNone
  | tx :: rest =>
      if is_creation_of asset_id tx then note_of_creation_tx tx
      else scan_transactions asset_id rest
  end.

Definition extract_note_from_creation_tx (asset_id : Z) : note_content J :=
  match get_asset_transactions asset_id 50 with
  | Raise e => NoteText ("[Error fetching transactions: " ++ exn_str codec e ++ "]")
  | Return transactions => scan_transactions asset_id transactions
  end.
End Note.

End VerifyNote.

(** * scripts/verify_nft.py *)

Module VerifyNft.
Import Text Py Api.

(** The JSON object [asset_info] returns: whether it has keys besides
    ["params"], and the ["params"] object when that key is there. *)
Record AssetObject := mkAssetObject {
  has_other_keys : bool;
  params_of : option dict
}.

(** [not asset_info] on an object: it has no key. *)
Definition is_empty_object (info : AssetObject) : bool :=
  negb (has_other_keys info) && bool_decide (params_of info = None).

(** [verification_results], a dict with seven keys in this order. *)
Record Checks := mkChecks {
  is_nft : bool;
  correct_unit_name : bool;
  correct_name_format : bool;
  correct_creator : bool;
  metadata_hash_valid : bool;
  has_note : bool;
  note_content_valid : bool
}.

Definition values (r : Checks) : list bool :=
  [is_nft r; correct_unit_name r; correct_name_format r; correct_creator r;
   metadata_hash_valid r; has_note r; note_content_valid r].

(** What [verify_account_holds_asset] returns. *)
Inductive Holding : Type :=
| Holds (amount is_frozen : value)
| NotHeld
| HoldingError (error : string).

(** What [comprehensive_verification] returns: the error object or the
    report. *)
Record Report (J : Type) := mkReport {
  asset_id : Z;
  asset_info : dict;
  verification_results : Checks;
  note_content_of : note_content J;
  holder_info : option Holding;
  overall_valid : bool
}.
Arguments mkReport {J}.
Arguments asset_id {J}.
Arguments asset_info {J}.
Arguments verification_results {J}.
Arguments note_content_of {J}.
Arguments holder_info {J}.
Arguments overall_valid {J}.

Inductive Outcome (J : Type) : Type :=
| AssetNotFound
| Verified (r : Report J).
Arguments AssetNotFound {J}.
Arguments Verified {J} r.

Section Verifier.
Context {J : Type}.
Variable deployer_address : string.
Variable codec : Codec J.
Variable algod_asset_info : Z → result AssetObject.
Variable algod_account_info : string → result AccountInfo.
Variable indexer_client : option (Z → nat → result (option (list dict))).

Definition get_asset_info (asset_id : Z) : option AssetObject :=
  match algod_asset_info asset_id with
  | Return info => Some info
  | Raise _ => None
  end.

(** The body of the [try] of [verify_metadata_hash]. *)
Definition metadata_hash_matches
    (expected_metadata : dict) (actual_metadata_hash_b64 : value) : result bool :=
  match expected_metadata !! "certificate_hash" with
  | Some cert_hash_hex =>
      let* expected_hash_bytes :=
        match cert_hash_hex with
        | PStr hex =>
            match unhexlify hex with
            | Some b => Return b
            | None => Raise BinasciiError
            end
        | _ => Raise (TypeError "argument should be bytes, buffer or ASCII string")
        end in
      let* actual_hash_bytes := b64decode codec actual_metadata_hash_b64 in
      Return (bool_decide (expected_hash_bytes = actual_hash_bytes))
  | None => Return false
  end.

Definition verify_metadata_hash
    (expected_metadata : dict) (actual_metadata_hash_b64 : value) : bool :=
  match metadata_hash_matches expected_metadata actual_metadata_hash_b64 with
  | Return b => b
  | Raise _ => false
  end.

(** [expected_metadata] is a dict or [None]; it counts as true when it is a
    dict with a key. *)
Definition given (expected_metadata : option dict) : bool :=
  match expected_metadata with
  | Some d => negb (bool_decide (d = ∅))
  | None => false
  end.

Definition verify_poap_structure
    (info : AssetObject) (expected_metadata : option dict)
  : result (Checks * dict) :=
  let params := default ∅ (params_of info) in
  let asset_name := get_or params "name" (PStr EmptyString) in
  let* name_ok := py_in "POAP" asset_name in
  let metadata_hash := get params "metadata-hash" in
  let hash_ok :=
    if truthy metadata_hash && given expected_metadata
    then verify_metadata_hash (default ∅ expected_metadata) metadata_hash
    else false in
  Return
    ({| is_nft := py_eq (get params "total") (PInt 1)
                  && py_eq (get params "decimals") (PInt 0);
        correct_unit_name := py_eq (get params "unit-name") (PStr "POAP");
        correct_name_format := name_ok;
        correct_creator := py_eq (get params "creator") (PStr deployer_address);
        metadata_hash_valid := hash_ok;
        has_note := false;
        note_content_valid := false |},
     params).

(** [None] stands for the [None] the method returns when there is no
    indexer or the search raises. *)
Definition get_asset_transactions (asset_id : Z) (limit : nat)
  : option (list dict) :=
  match indexer_client with
  | None => None
  | Some search_asset_transactions =>
      match search_asset_transactions asset_id limit with
      | Return response => Some (default [] response)
      | Raise _ => None
      end
  end.

(** The loop of [extract_note_from_creation_tx]: a creation transaction
    without a note is passed over; an exception that is neither a JSON nor a
    Unicode error leaves through the outer handler, which returns [None]. *)
Fixpoint scan_transactions (asset_id : Z) (transactions : list dict)
  : note_content J :=
  match transactions with
  | [] => NoteNone
  | tx :: rest =>
      if is_creation_of asset_id tx && truthy (get tx "note") then
        match b64decode codec (get tx "note") with
        | Raise _ => NoteNone
        | Return note_bytes =>
            match decode_utf8 codec note_bytes with
            | None => NoteText (decode_utf8_ignore codec note_bytes)
            | Some note_text =>
                match json_loads codec note_text with
                | Some j => NoteJson j
                | None => NoteText (decode_utf8_ignore codec note_bytes)
                end
            end
        end
      else scan_transactions asset_id rest
  end.

Definition extract_note_from_creation_tx (asset_id : Z) : note_content J :=
  match get_asset_transactions asset_id 50 with
  | None => NoteNone
  | Some transactions => scan_transactions asset_id transactions
  end.

(** The loop of [verify_account_holds_asset]. *)
Fixpoint find_holding (asset_id : Z) (assets : list dict) : Holding :=
  match assets with
  | [] => NotHeld
  | asset :: rest =>
      if py_eq (get asset "asset-id") (PInt asset_id)
      then Holds (get_or asset "amount" (PInt 0))
                 (get_or asset "is-frozen" (PBool false))
      else find_holding asset_id rest
  end.

Definition verify_account_holds_asset (account_address : string) (asset_id : Z)
  : Holding :=
  match algod_account_info account_address with
  | Return account_info => find_holding asset_id (default [] (assets account_info))
  | Raise e => HoldingError (exn_str codec e)
  end.

(** [sum(verification_results.values())] *)
Definition passed_checks (r : Checks) : Z :=
  fold_left (λ acc b, (acc + int_of_bool b)%Z) (values r) 0%Z.

Definition total_checks (r : Checks) : Z := Z.of_nat (length (values r)).

(** What the method returns; what it prints on the way is not modelled. *)
Definition comprehensive_verification
    (asset_id : Z) (expected_metadata : option dict) (holder_address : option string)
  : result (Outcome J) :=
  match get_asset_info asset_id with
  | None => Return AssetNotFound
  | Some info =>
      if is_empty_object info then Return AssetNotFound
      else
        let* rp := verify_poap_structure info expected_metadata in
        let note := extract_note_from_creation_tx asset_id in
        let holder :=
          match holder_address with
          | Some address =>
              if bool_decide (address = EmptyString) then None
              else Some (verify_account_holds_asset address asset_id)
          | None => None
          end in
        Return (Verified
                  (mkReport asset_id rp.2 rp.1 note holder
                            (bool_decide (passed_checks rp.1 = total_checks rp.1))))
  end.

(** [compare_metadata]: every expected key is in the note with an equal
    value; a note that is not an object never matches. *)
Definition compare_metadata (note_metadata : parsed J) (expected_metadata : dict)
  : bool :=
  match note_metadata with
  | Obj note =>
      forallb (λ kv : string * value,
                 match note !! kv.1 with
                 | Some v => py_eq v kv.2
                 | None => false
                 end)
              (map_to_list expected_metadata)
  | NonObj _ => false
  end.

Definition verify_poap_by_asset_id
    (asset_id : Z) (expected_metadata : option dict) (holder_address : option string)
  : result (Outcome J) :=
  comprehensive_verification asset_id expected_metadata holder_address.

(** The loop of [verify_multiple_poaps], from index [i] on. *)
Fixpoint verify_from (i : nat) (asset_ids : list Z)
    (expected_metadata_list : option (list (option dict)))
  : result (list (Outcome J)) :=
  match asset_ids with
  | [] => Return []
  | asset_id :: rest =>
      let expected :=
        match expected_metadata_list with
        | Some l => default None (l !! i)
        | None => None
        end in
      let* r := comprehensive_verification asset_id expected None in
      let* results := verify_from (S i) rest expected_metadata_list in
      Return (r :: results)
  end.

Definition verify_multiple_poaps
    (asset_ids : list Z) (expected_metadata_list : option (list (option dict)))
  : result (list (Outcome J)) :=
  verify_from 0 asset_ids expected_metadata_list.
End Verifier.

End VerifyNft.

(** * scripts/gen_cert.py: reading a certificate back from an asset *)

Module GenCertDetails.
Import Text Py Api GenCert.

(** What [get_certificate_details_from_asset_id] returns: the failure
    object, the result with the metadata of the note, or the fallback result
    with placeholders. *)
Inductive Details : Type :=
| Failure (asset_id : Z) (error : string)
| Extracted (asset_id : Z) (certificate_hash : option string)
            (certificate_details asset_info full_metadata : dict)
| Fallback (asset_id : Z) (certificate_hash : option string)
           (certificate_details asset_info : dict).

Definition unavailable : string := "Data not available in transaction note".

(** The [certificate_details] of the fallback result. *)
Definition placeholder_details : dict :=
  <["event" := PStr unavailable]>
  (<["organizer" := PStr "Data not available"]>
  (<["date" := PStr "Data not available"]>
  (<["recipient_name" := PStr "Data not available"]>
  (<["recipient_address" := PStr "Data not available"]> ∅)))).

(** The [certificate_details] built from the metadata of the note; a key the
    metadata lacks is there with [None]. *)
Definition details_of (full_metadata : dict) : dict :=
  <["event" := get full_metadata "event"]>
  (<["organizer" := get full_metadata "organizer"]>
  (<["date" := get full_metadata "date"]>
  (<["recipient_name" := get full_metadata "recipient_name"]>
  (<["recipient_address" := get full_metadata "recipient_address"]>
  (<["issued_at" := get full_metadata "issued_at"]>
  (<["poap_version" := get full_metadata "poap_version"]>
  (<["type" := get full_metadata "type"]> ∅))))))).

(** The [asset_info] of both results. *)
Definition asset_basic_info (params : dict) : dict :=
  <["name" := get params "name"]>
  (<["creator" := get params "creator"]>
  (<["url" := get params "url"]>
  (<["unit_name" := get params "unit-name"]> ∅))).

Section Extractor.
Context {J : Type}.
Variable codec : Codec J.
Variable algod_asset_info : Z → result Verify.AssetInfo.
(** The search of the indexer for the configuration transactions of an
    asset, giving the list under ["transactions"] when the key is there. *)
Variable indexer_search : Z → result (option (list dict)).

(** Step 2: the metadata hash of the asset, printed in hexadecimal. *)
Definition certificate_hash_of (params : dict) : option string :=
  let metadata_hash_b64 := get_or params "metadata-hash" (PStr EmptyString) in
  if truthy metadata_hash_b64 then
    match b64decode codec metadata_hash_b64 with
    | Return metadata_hash_bytes => Some (hexlify metadata_hash_bytes)
    | Raise _ => None
    end
  else None.

(** Step 3: the metadata in the note of the creation transaction; [None]
    when any part of the way fails, which sends the function to its
    fallback. *)
Definition note_metadata (asset_id : Z) : option dict :=
  match indexer_search asset_id with
  | Raise _ => None
  | Return response =>
      match find (is_creation_of asset_id) (default [] response) with
      | None => None
      | Some creation_tx =>
          match get_or creation_tx "id" (PStr "Unknown") with
          | PStr _ =>
              let note_b64 := get_or creation_tx "note" (PStr EmptyString) in
              if truthy note_b64 then
                match b64decode codec note_b64 with
                | Raise _ => None
                | Return note_bytes =>
                    match decode_utf8 codec note_bytes with
                    | None => None
                    | Some note_text =>
                        match json_loads codec note_text with
                        | Some (Obj full_metadata) => Some full_metadata
                        | Some (NonObj _) => None
                        | None => None
                        end
                    end
                end
              else None
          | _ => None
          end
      end
  end.

Definition get_certificate_details_from_asset_id (asset_id : Z) : Details :=
  match algod_asset_info asset_id with
  | Raise e =>
      Failure asset_id ("Failed to retrieve asset information: " ++ exn_str codec e)
  | Return info =>
      let params := default ∅ (Verify.params_of info) in
      let certificate_hash := certificate_hash_of params in
      match note_metadata asset_id with
      | Some full_metadata =>
          Extracted asset_id certificate_hash (details_of full_metadata)
                    (asset_basic_info params) full_metadata
      | None =>
          Fallback asset_id certificate_hash placeholder_details
                   (asset_basic_info params)
      end
  end.
End Extractor.

(** [result.get('certificate_hash')] as a value. *)
Definition hash_value (certificate_hash : option string) : value :=
  match certificate_hash with
  | Some h => PStr h
  | None => PNone
  end.

(** The line "Hash Verification" of [display_certificate_info]: [None] when
    the function does not print it, otherwise whether it says VALID. The five
    fields are printed first, so a result without one of them raises. *)
Definition displayed_hash_verification (r : Details) : result (option bool) :=
  let check (certificate_hash : option string) (details : dict) :=
    let* event := getitem details "event" in
    let* organizer := getitem details "organizer" in
    let* date := getitem details "date" in
    let* recipient_name := getitem details "recipient_name" in
    let* recipient_address := getitem details "recipient_address" in
    if truthy (hash_value certificate_hash)
       && negb (py_eq event (PStr unavailable))
    then
      let* is_valid := verify_certificate_hash details (hash_value certificate_hash) in
      Return (Some is_valid)
    else Return None in
  match r with
  | Failure _ _ => Return None
  | Extracted _ certificate_hash details _ _ => check certificate_hash details
  | Fallback _ certificate_hash details _ => check certificate_hash details
  end.

End GenCertDetails.

(** * scripts/nft_gen.py *)

Module NftGen.
Import Text Py Api.

(** [s[:n]] on a string: the first [n] characters. A character is one byte
    that is not a continuation byte, with the continuation bytes after it. *)
Definition is_continuation (c : ascii) : bool :=
  let b := Z.of_N (N_of_ascii c) in ((128 <=? b) && (b <? 192))%Z.

Fixpoint take_chars (n : nat) (s : string) : string :=
  match s with
  | EmptyString => EmptyString
  | String c rest =>
      if is_continuation c then String c (take_chars n rest)
      else
        match n with
        | O => EmptyString
        | S n' => String c (take_chars n' rest)
        end
  end.

(** [f"{i:02d}"] for a count [i]: its decimal digits, at least two. *)
Definition format_02d (i : nat) : string :=
  let digits := NilZero.string_of_uint (Nat.to_uint i) in
  if (String.length digits <? 2)%nat then "0" ++ digits else digits.

(** The arguments of the [AssetConfigTxn] and of the [AssetTransferTxn] the
    script builds. *)
Record AssetCreate := mkAssetCreate {
  sender : string;
  total : Z;
  default_frozen : bool;
  unit_name : string;
  asset_name : string;
  manager : string;
  reserve : string;
  freeze : string;
  clawback : string;
  url : value;
  metadata_hash : Bytes;
  note : Bytes;
  decimals : Z
}.

Record AssetTransfer := mkAssetTransfer {
  transfer_sender : string;
  receiver : string;
  amt : Z;
  index : value
}.

(** The dicts [mint_and_transfer_poap] returns, by case. *)
Inductive MintResult : Type :=
| AccountMissing
| CreateFailed (error : string)
| OptInRequired (asset_id : value) (asset_creation_txid : string)
| TransferFailed (error : string) (asset_id : value) (asset_creation_txid : string)
| Minted (asset_id : value) (asset_creation_txid transfer_txid recipient : string)
         (event : value).

(** [result['success']] *)
Definition success (r : MintResult) : bool :=
  match r with
  | Minted _ _ _ _ _ => true
  | _ => false
  end.

Section Script.
(** The ledger as the script meets it: a state [W] that its calls read and
    change. [account_info] and [suggested_params] read it. [create_asset]
    stands for the signature, the submission, the wait and the pending
    information of the creation, giving the transaction id and that
    information; [transfer_asset] for the signature, the submission and the
    wait of the transfer, giving its transaction id. A call that raises may
    still have changed the ledger. *)
Variable W : Type.
Variable SP : Type.
Variable deployer_address : string.
Variable json_dumps : dict → string.
Variable exn_str : exn → string.
(** Whether [balance / 1000000] is in the range of a float. *)
Variable float_ok : Z → bool.
Variable account_info : W → string → result AccountInfo.
Variable suggested_params : W → result SP.
Variable create_asset : W → SP → AssetCreate → result (string * dict) * W.
Variable transfer_asset : W → SP → AssetTransfer → result string * W.

(** The balance can be printed: it is a number that divides into a float. *)
Definition printable_balance (balance : value) : bool :=
  match balance with
  | PInt z => float_ok z
  | PBool _ => true
  | _ => false
  end.

Definition check_account_exists (w : W) (address : string) : bool * value :=
  match account_info w address with
  | Return info =>
      match amount info with
      | Some balance =>
          if printable_balance balance then (true, balance) else (false, PInt 0)
      | None => (false, PInt 0)
      end
  | Raise _ => (false, PInt 0)
  end.

Definition check_asset_opt_in (w : W) (user_address : string) (asset_id : value)
  : bool :=
  match account_info w user_address with
  | Return info =>
      existsb (λ asset, py_eq (get asset "asset-id") asset_id)
              (default [] (assets info))
  | Raise _ => false
  end.

(** The first lines of step 1: the bytes of the hash and the note. *)
Definition hash_and_note (nft_metadata : dict) : result (Bytes * Bytes) :=
  let* cert_hash_hex := getitem nft_metadata "certificate_hash" in
  let* metadata_hash_bytes :=
    match cert_hash_hex with
    | PStr hex =>
        match unhexlify hex with
        | Some b => Return b
        | None => Raise BinasciiError
        end
    | _ => Raise (TypeError "argument should be bytes, buffer or ASCII string")
    end in
  Return (metadata_hash_bytes, encode (json_dumps nft_metadata)).

(** The [AssetConfigTxn] of step 1. *)
Definition build_creation (nft_metadata : dict) (metadata_hash_bytes note : Bytes)
  : result AssetCreate :=
  let* event_prefix :=
    match get_or nft_metadata "event" (PStr "Event") with
    | PStr event => Return (take_chars 15 event)
    | _ => Raise (TypeError "object is not subscriptable")
    end in
  Return {| sender := deployer_address;
            total := 1;
            default_frozen := false;
            unit_name := "POAP";
            asset_name := "POAP-" ++ event_prefix;
            manager := deployer_address;
            reserve := deployer_address;
            freeze := deployer_address;
            clawback := deployer_address;
            url := get_or nft_metadata "url"
                     (PStr "https://yourapp.example/metadata.json");
            metadata_hash := metadata_hash_bytes;
            note := note;
            decimals := 0 |}.

(** The transaction step 1 builds from the metadata, when it gets to it. *)
Definition creation_txn (nft_metadata : dict) : result AssetCreate :=
  let* hn := hash_and_note nft_metadata in
  build_creation nft_metadata hn.1 hn.2.

(** Step 1: the creation, giving the transaction id and the asset id. *)
Definition create (w : W) (nft_metadata : dict) : result (string * value) * W :=
  match hash_and_note nft_metadata with
  | Raise e => (Raise e, w)
  | Return (metadata_hash_bytes, note) =>
      match suggested_params w with
      | Raise e => (Raise e, w)
      | Return params =>
          match build_creation nft_metadata metadata_hash_bytes note with
          | Raise e => (Raise e, w)
          | Return txn =>
              match create_asset w params txn with
              | (Raise e, w') => (Raise e, w')
              | (Return (asset_txid, ptx), w') =>
                  match getitem ptx "asset-index" with
                  | Return asset_id => (Return (asset_txid, asset_id), w')
                  | Raise e => (Raise e, w')
                  end
              end
          end
      end
  end.

(** Step 3: the transfer of the one unit to the user. *)
Definition transfer (w : W) (user_address : string) (asset_id : value)
  : result string * W :=
  match suggested_params w with
  | Raise e => (Raise e, w)
  | Return params =>
      transfer_asset w params
        {| transfer_sender := deployer_address;
           receiver := user_address;
           amt := 1;
           index := asset_id |}
  end.

Definition mint_and_transfer_poap
    (nft_metadata : dict) (user_address : string) (auto_optin : bool) (w : W)
  : MintResult * W :=
  let '(user_exists, user_balance) := check_account_exists w user_address in
  if negb user_exists then (AccountMissing, w)
  else
    match create w nft_metadata with
    | (Raise e, w1) => (CreateFailed ("Error creating asset: " ++ exn_str e), w1)
    | (Return (asset_txid, asset_id), w1) =>
        let user_opted_in := check_asset_opt_in w1 user_address asset_id in
        if negb user_opted_in && auto_optin
        then (OptInRequired asset_id asset_txid, w1)
        else
          match transfer w1 user_address asset_id with
          | (Return transfer_txid, w2) =>
              (Minted asset_id asset_txid transfer_txid user_address
                      (get nft_metadata "event"), w2)
          | (Raise e, w2) =>
              (TransferFailed ("Asset created but transfer failed: " ++ exn_str e)
                              asset_id asset_txid, w2)
          end
    end.

(** The metadata of recipient number [i] of a batch. *)
Definition unique_metadata (nft_metadata : dict) (i : nat) : result dict :=
  let* base_hash := getitem nft_metadata "certificate_hash" in
  Return (<["certificate_hash" := PStr (str base_hash ++ format_02d i)]>
          (<["recipient_number" := PInt (Z.of_nat i)]> nft_metadata)).

(** The loop of [batch_mint_and_transfer], from recipient number [i] on. *)
Fixpoint batch_from (i : nat) (nft_metadata : dict) (user_addresses : list string)
    (w : W) : result (list MintResult) * W :=
  match user_addresses with
  | [] => (Return [], w)
  | user_address :: rest =>
      match unique_metadata nft_metadata i with
      | Raise e => (Raise e, w)
      | Return unique =>
          let '(r, w1) := mint_and_transfer_poap unique user_address true w in
          match batch_from (S i) nft_metadata rest w1 with
          | (Return results, w2) => (Return (r :: results), w2)
          | (Raise e, w2) => (Raise e, w2)
          end
      end
  end.

Definition batch_mint_and_transfer
    (nft_metadata : dict) (user_addresses : list string) (w : W)
  : result (list MintResult) * W :=
  batch_from 1 nft_metadata user_addresses w.
End Script.

End NftGen.

(** * Concrete ledgers for the examples of the readers *)

Module ReaderSamples.
Import Text Py Api Samples.

(** A codec that knows one base64 text, the one of the sample digest, and
    reads every note as an object with the sample metadata. *)
Definition sample_codec : Codec unit :=
  {| b64decode := λ v,
       if bool_decide (v = PStr "q83vEjRWeJCrze8SNFZ4kKvN7xI0VniQq83vEjRWeJA=")
       then Return (default [] (unhexlify sample_hash))
       else Raise BinasciiError;
     decode_utf8 := λ b, Some (string_of_list_byte b);
     decode_utf8_ignore := λ b, string_of_list_byte b;
     json_loads := λ _, Some (Obj sample_metadata);
     exn_str := λ e,
       match e with
       | KeyError k => k
       | TypeError m => m
       | BinasciiError => "Incorrect padding"
       | HTTPError m => m
       end |}.

(** The creation transaction of asset [745899830], with its note, after a
    transfer of the same asset and before a later reconfiguration that
    carries no note. *)
Definition transfer_tx : dict :=
  <["tx-type" := PStr "axfer"]> (<["id" := PStr "TX0"]> ∅).

Definition creation_tx : dict :=
  <["tx-type" := PStr "acfg"]>
  (<["created-asset-index" := PInt 745899830]>
  (<["id" := PStr "TX1"]>
  (<["note" := PStr "q83vEjRWeJCrze8SNFZ4kKvN7xI0VniQq83vEjRWeJA="]> ∅))).

Definition bare_creation_tx : dict :=
  <["tx-type" := PStr "acfg"]>
  (<["created-asset-index" := PInt 745899830]> (<["id" := PStr "TX2"]> ∅)).

Definition sample_indexer : Z → nat → result (option (list dict)) :=
  λ asset_id _,
    if bool_decide (asset_id = 745899830%Z)
    then Return (Some [transfer_tx; bare_creation_tx; creation_tx])
    else Return (Some []).

(** The parameters of the asset with the sample digest as metadata hash. *)
Definition hashed_params (creator : string) : dict :=
  <["metadata-hash" := PStr "q83vEjRWeJCrze8SNFZ4kKvN7xI0VniQq83vEjRWeJA="]>
    (minted_params creator).

Definition sample_algod (creator : string) : Z → result VerifyNft.AssetObject :=
  λ asset_id,
    if bool_decide (asset_id = 745899830%Z)
    then Return (VerifyNft.mkAssetObject true (Some (hashed_params creator)))
    else Raise (HTTPError "asset does not exist").

(** One account, [HOLDER], that holds the asset. *)
Definition sample_accounts : string → result AccountInfo :=
  λ address,
    if bool_decide (address = "HOLDER")
    then Return (mkAccountInfo (Some (PInt 500000))
                   (Some [<["asset-id" := PInt 7]> (<["amount" := PInt 3]> ∅);
                          <["asset-id" := PInt 745899830]>
                            (<["amount" := PInt 1]> ∅)]))
    else Raise (HTTPError "account does not exist").

(** A certificate with its five fields and their digest, the ledger after
    mint_nft.py minted it as asset [745899830], and the codec that decodes
    what that ledger returns. *)
Definition issued_metadata : dict :=
  <["certificate_hash" :=
      PStr "bf7871fbc37667d018c6a27a65eb274ec0fad6ef6f395df80108cf2d2d39aed1"]>
    sample_details.

Definition issued_codec : Codec unit :=
  {| b64decode := λ v,
       if bool_decide (v = PStr "v3hx+8N2Z9AYxqJ6ZesnTsD61u9vOV34AQjPLS05rtE=")
       then Return (default [] (unhexlify
              "bf7871fbc37667d018c6a27a65eb274ec0fad6ef6f395df80108cf2d2d39aed1"))
       else if bool_decide (v = PStr "e30=")
       then Return (encode "{}")
       else Raise BinasciiError;
     decode_utf8 := λ b, Some (string_of_list_byte b);
     decode_utf8_ignore := λ b, string_of_list_byte b;
     json_loads := λ _, Some (Obj issued_metadata);
     exn_str := exn_str sample_codec |}.

Definition issued_algod : Z → result Verify.AssetInfo :=
  λ asset_id,
    if bool_decide (asset_id = 745899830%Z)
    then Return (Verify.mkAssetInfo
                   (Some (<["metadata-hash" :=
                              PStr "v3hx+8N2Z9AYxqJ6ZesnTsD61u9vOV34AQjPLS05rtE="]>
                            (minted_params "DEPLOYER"))))
    else Raise (HTTPError "asset does not exist").

Definition issued_creation_tx : dict :=
  <["tx-type" := PStr "acfg"]>
  (<["created-asset-index" := PInt 745899830]>
  (<["id" := PStr "TX1"]> (<["note" := PStr "e30="]> ∅))).

Definition issued_indexer : Z → result (option (list dict)) :=
  λ asset_id,
    if bool_decide (asset_id = 745899830%Z)
    then Return (Some [issued_creation_tx])
    else Return (Some []).

(** A ledger for nft_gen.py, as the number of transactions it has taken:
    the account [USER] is funded and holds no asset, every creation gives
    asset [1001], and nothing fails. *)
Definition counting_accounts : nat → string → result AccountInfo :=
  λ _ address,
    if bool_decide (address = "USER")
    then Return (mkAccountInfo (Some (PInt 200000)) (Some []))
    else Raise (HTTPError "account does not exist").

Definition counting_create
  : nat → unit → NftGen.AssetCreate → result (string * dict) * nat :=
  λ w _ _, (Return ("TXC", <["asset-index" := PInt 1001]> ∅), S w).

Definition counting_transfer
  : nat → unit → NftGen.AssetTransfer → result string * nat :=
  λ w _ _, (Return "TXT", S w).

Definition small_balance (z : Z) : bool := (Z.abs z <? 2 ^ 64)%Z.

End ReaderSamples.

(** * Test vectors of the digest and of the hexadecimal codec *)

Module SHA256Tests.
Import Text SHA256.

Example sha256_abc :
  hexdigest (encode "abc")
  = "ba7816bf8f01cfea414140de5dae2223b00361a396177a9cb410ff61f20015ad".
Proof. vm_compute. reflexivity. Qed.

Example sha256_empty :
  hexdigest []
  = "e3b0c44298fc1c149afbf4c8996fb92427ae41e4649b934ca495991b7852b855".
Proof. vm_compute. reflexivity. Qed.

(** 56 and 119 bytes: the padding spills into one more block. *)
Example sha256_56_a :
  hexdigest (repeat Byte.x61 56)
  = "b35439a4ac6f0948b6d6f9e3c6af0f5f590ce20f1bde7090ef7970686ec6738a".
Proof. vm_compute. reflexivity. Qed.

Example sha256_119_a :
  hexdigest (repeat Byte.x61 119)
  = "31eba51c313a5c08226adf18d4a359cfdfd8d2e816b13f4af952f7ea6584dcfb".
Proof. vm_compute. reflexivity. Qed.

Example round_constants :
  length K = 64%nat ∧ nth 0 K 0%Z = 0x428a2f98%Z ∧ nth 63 K 0%Z = 0xc67178f2%Z.
Proof. vm_compute. auto. Qed.

Example initial_hash :
  length H0 = 8%nat ∧ nth 0 H0 0%Z = 0x6a09e667%Z ∧ nth 7 H0 0%Z = 0x5be0cd19%Z.
Proof. vm_compute. auto. Qed.

Example digest_length : length (digest (encode "abc")) = 32%nat.
Proof. vm_compute. reflexivity. Qed.

Example unhexlify_mixed_case :
  unhexlify "0aFf10" = Some [Byte.x0a; Byte.xff; Byte.x10].
Proof. vm_compute. reflexivity. Qed.

Example unhexlify_odd : unhexlify "abc" = None.
Proof. vm_compute. reflexivity. Qed.

Example unhexlify_not_hex : unhexlify "zz" = None.
Proof. vm_compute. reflexivity. Qed.

Example hexlify_bytes : hexlify [Byte.x0a; Byte.xff; Byte.x10] = "0aff10".
Proof. vm_compute. reflexivity. Qed.

End SHA256Tests.

(** * Properties of the registry contract *)

Module RegistryProofs.
Import Registry Samples.

(** The three methods, with the monad unfolded. *)
Lemma register_certificate_eq txn h s :
  register_certificate txn h s =
    if bool_decide (default empty_bytes (certificates s !! h) = empty_bytes)
    then (Ok tt, mkState (<[h := sender txn]> (certificates s)))
    else (Reject "Certificate hash is already registered.", s).
Proof.
  unfold register_certificate, bind, box_get, assert_, box_set.
  by destruct (bool_decide _).
Qed.

Lemma verify_certificate_eq h s :
  verify_certificate h s = (Ok (default empty_bytes (certificates s !! h)), s).
Proof. reflexivity. Qed.

Lemma transfer_certificate_eq txn h n s :
  transfer_certificate txn h n s =
    let current_owner := default empty_bytes (certificates s !! h) in
    if bool_decide (current_owner = empty_bytes)
    then (Reject "Certificate not found or not registered.", s)
    else if bool_decide (current_owner = sender txn)
    then (Ok tt, mkState (<[h := n]> (certificates s)))
    else (Reject "Permission denied: Only the current owner can transfer.", s).
Proof.
  unfold transfer_certificate, bind, box_get, assert_, box_set. simpl.
  destruct (bool_decide (default _ _ = empty_bytes)); simpl; [done|].
  by destruct (bool_decide _).
Qed.

(** A real account is never the empty sentinel. *)
Lemma address_nonempty b : is_address b → b ≠ empty_bytes.
Proof. intros Hb ->. discriminate Hb. Qed.

(** A rejected call has written nothing: the storage it stopped with is the
    storage it started from, so committing or discarding it is the same. *)
Lemma run_reject_unchanged txn c s msg s' :
  run txn c s = (Reject msg, s') → s' = s.
Proof.
  destruct c as [h|h|h n]; unfold run, bind, ret.
  - rewrite register_certificate_eq. case_bool_decide; simpl; intros; congruence.
  - rewrite verify_certificate_eq. simpl. intros; congruence.
  - rewrite transfer_certificate_eq. simpl.
    repeat case_bool_decide; simpl; intros; congruence.
Qed.

Lemma apply_call_eq txn c s : apply_call txn c s = (run txn c s).2.
Proof.
  unfold apply_call, commit. destruct (run txn c s) as [[a|msg] s'] eqn:E; [done|].
  simpl. symmetry. by eapply run_reject_unchanged.
Qed.

(** [register_certificate] creates the entry or changes nothing. *)
Lemma register_all_or_nothing txn h s :
  register_certificate txn h s
    = (Ok tt, mkState (<[h := sender txn]> (certificates s)))
  ∨ register_certificate txn h s
    = (Reject "Certificate hash is already registered.", s).
Proof. rewrite register_certificate_eq. case_bool_decide; auto. Qed.

Lemma orphaned_reachable : reachable orphaned.
Proof. repeat constructor. Qed.

Lemma orphaned_lookup : certificates orphaned !! h1 = Some empty_bytes.
Proof. vm_compute. reflexivity. Qed.

(** The life of one certificate: registered by Alice, read, transferred by
    her to Bob, read again; Alice, no longer the owner, cannot transfer it, and
    the owner on file stays Bob. *)
Example scenario_register_transfer :
  let s1 := apply_call alice (Register h1) init in
  let s2 := apply_call alice (Transfer h1 (sender bob)) s1 in
  let s3 := apply_call alice (Transfer h1 (sender carol)) s2 in
  (verify_certificate h1 s1).1 = Ok (sender alice)
  ∧ (verify_certificate h1 s2).1 = Ok (sender bob)
  ∧ (transfer_certificate alice h1 (sender carol) s2).1
    = Reject "Permission denied: Only the current owner can transfer."
  ∧ s3 = s2
  ∧ (verify_certificate h1 s3).1 = Ok (sender bob)
  ∧ (verify_certificate [Byte.x00] s3).1 = Ok empty_bytes.
Proof. vm_compute. repeat split. Qed.

(** C1. On a hash with no entry, [register_certificate] by any sender
    succeeds, the mapping becomes the old one with [h ↦ sender] added, and
    [verify_certificate] then returns the sender. *)
Theorem register_fresh_then_verify (s : State) (txn : Txn) (h : Bytes) :
  certificates s !! h = None →
  ∃ s', register_certificate txn h s = (Ok tt, s')
        ∧ apply_call txn (Register h) s = s'
        ∧ certificates s' = <[h := sender txn]> (certificates s)
        ∧ certificates s' !! h = Some (sender txn)
        ∧ verify_certificate h s' = (Ok (sender txn), s').
Proof.
  intros Hnone. eexists. rewrite apply_call_eq. unfold run, bind, ret.
  rewrite register_certificate_eq, Hnone. simpl.
  split; [reflexivity|]. split; [reflexivity|]. simpl. split; [reflexivity|].
  rewrite verify_certificate_eq. simpl. by rewrite lookup_insert_eq.
Qed.

Lemma register_fresh_then_verify_witness :
  certificates init !! h1 = None
  ∧ ∃ s', register_certificate alice h1 init = (Ok tt, s')
          ∧ apply_call alice (Register h1) init = s'
          ∧ certificates s' = <[h1 := sender alice]> (certificates init)
          ∧ certificates s' !! h1 = Some (sender alice)
          ∧ verify_certificate h1 s' = (Ok (sender alice), s').
Proof.
  split; [reflexivity | apply (register_fresh_then_verify init alice h1); reflexivity].
Defined.

(** C2, as stated, fails: in a state the contract reaches, an entry for the
    hash exists (its stored owner is the empty byte string) and
    [register_certificate] does not reject. *)
Lemma register_accepts_entry_with_empty_owner :
  ¬ (∀ (s : State) (txn : Txn) (h : Bytes),
       reachable s → is_address (sender txn) →
       (rejects (register_certificate txn h s) ↔ is_Some (certificates s !! h))).
Proof.
  intros Hclaim.
  destruct (Hclaim orphaned bob h1 orphaned_reachable eq_refl) as [_ Hrej].
  destruct Hrej as [msg Hmsg].
  - rewrite orphaned_lookup. by eexists.
  - rewrite register_certificate_eq, orphaned_lookup in Hmsg. discriminate Hmsg.
Qed.

(** C2, amended. [register_certificate] rejects exactly when the mapping
    holds an entry for the hash whose stored owner is not the empty byte
    string; absence and a stored empty owner are not told apart. *)
Theorem register_rejects_iff_owner_nonempty (s : State) (txn : Txn) (h : Bytes) :
  rejects (register_certificate txn h s)
  ↔ ∃ owner, certificates s !! h = Some owner ∧ owner ≠ empty_bytes.
Proof.
  rewrite register_certificate_eq. unfold rejects. split.
  - intros [msg Hmsg]. destruct (certificates s !! h) as [o|] eqn:E; simpl in *.
    + exists o. split; [done|]. intros ->. discriminate Hmsg.
    + discriminate Hmsg.
  - intros (o & -> & Hne). simpl.
    rewrite bool_decide_eq_false_2 by done. by eexists.
Qed.

(** C3. For a hash with stored owner [O] and any new owner [N]: a transfer
    sent by an account other than [O] rejects and leaves the storage, hence
    the owner, as it was; a transfer sent by [O] succeeds and
    [verify_certificate] then returns [N]; a transfer of a hash without an
    entry rejects. *)
Theorem transfer_only_by_owner (s : State) (txn : Txn) (h O N : Bytes) :
  is_address (sender txn) →
  certificates s !! h = Some O →
  (sender txn ≠ O →
     ∃ msg, transfer_certificate txn h N s = (Reject msg, s)
            ∧ apply_call txn (Transfer h N) s = s
            ∧ certificates (apply_call txn (Transfer h N) s) !! h = Some O)
  ∧ (sender txn = O →
     ∃ s', transfer_certificate txn h N s = (Ok tt, s')
           ∧ apply_call txn (Transfer h N) s = s'
           ∧ verify_certificate h s' = (Ok N, s'))
  ∧ (∀ (s0 : State) (h0 : Bytes),
       certificates s0 !! h0 = None →
       ∃ msg, transfer_certificate txn h0 N s0 = (Reject msg, s0)
              ∧ apply_call txn (Transfer h0 N) s0 = s0).
Proof.
  intros Haddr HO. apply address_nonempty in Haddr.
  split; [|split].
  - intros Hne. rewrite apply_call_eq. unfold run, bind.
    rewrite transfer_certificate_eq, HO. simpl.
    case_bool_decide; [by eexists|].
    rewrite bool_decide_eq_false_2 by congruence. by eexists.
  - intros <-. rewrite apply_call_eq. unfold run, bind.
    rewrite transfer_certificate_eq, HO. simpl.
    rewrite bool_decide_eq_false_2 by done.
    rewrite bool_decide_eq_true_2 by done.
    eexists. split; [reflexivity|]. split; [reflexivity|].
    rewrite verify_certificate_eq. simpl. by rewrite lookup_insert_eq.
  - intros s0 h0 Hnone. rewrite apply_call_eq. unfold run, bind.
    rewrite transfer_certificate_eq, Hnone. simpl. by eexists.
Qed.

Lemma transfer_only_by_owner_witness :
  (is_address (sender bob) ∧ certificates registered !! h1 = Some (sender alice))
  ∧ (∃ msg, transfer_certificate bob h1 (sender carol) registered
            = (Reject msg, registered)
            ∧ apply_call bob (Transfer h1 (sender carol)) registered = registered
            ∧ certificates (apply_call bob (Transfer h1 (sender carol)) registered)
                !! h1 = Some (sender alice))
  ∧ (∃ s', transfer_certificate alice h1 (sender carol) registered = (Ok tt, s')
           ∧ apply_call alice (Transfer h1 (sender carol)) registered = s'
           ∧ verify_certificate h1 s' = (Ok (sender carol), s')).
Proof.
  split; [split; vm_compute; reflexivity|]. split.
  - apply (transfer_only_by_owner registered bob h1 (sender alice) (sender carol));
      [reflexivity | vm_compute; reflexivity | discriminate].
  - apply (transfer_only_by_owner registered alice h1 (sender alice) (sender carol));
      [reflexivity | vm_compute; reflexivity | reflexivity].
Defined.

(** C4. On a hash whose stored owner is an identity (not the empty
    sentinel), [register_certificate] by any sender rejects, and the storage
    after the rejected call is the storage before it; in particular the
    owner of the hash is the same. In every state the call either creates
    the entry or changes nothing. *)
Theorem second_register_rejects_atomically (s : State) (txn : Txn) (h O : Bytes) :
  certificates s !! h = Some O →
  O ≠ empty_bytes →
  register_certificate txn h s
    = (Reject "Certificate hash is already registered.", s)
  ∧ apply_call txn (Register h) s = s
  ∧ certificates (apply_call txn (Register h) s) !! h = Some O
  ∧ (∀ (s0 : State) (txn0 : Txn) (h0 : Bytes),
       register_certificate txn0 h0 s0
         = (Ok tt, mkState (<[h0 := sender txn0]> (certificates s0)))
       ∨ register_certificate txn0 h0 s0
         = (Reject "Certificate hash is already registered.", s0)).
Proof.
  intros HO Hne.
  assert (register_certificate txn h s
          = (Reject "Certificate hash is already registered.", s)) as Hreg.
  { rewrite register_certificate_eq, HO. simpl.
    by rewrite bool_decide_eq_false_2. }
  assert (apply_call txn (Register h) s = s) as Happ.
  { rewrite apply_call_eq. unfold run, bind. by rewrite Hreg. }
  rewrite Happ. repeat split; try done.
  intros s0 txn0 h0. apply register_all_or_nothing.
Qed.

Lemma second_register_rejects_atomically_witness :
  (certificates registered !! h1 = Some (sender alice)
   ∧ sender alice ≠ empty_bytes)
  ∧ register_certificate bob h1 registered
      = (Reject "Certificate hash is already registered.", registered)
  ∧ apply_call bob (Register h1) registered = registered
  ∧ certificates (apply_call bob (Register h1) registered) !! h1
      = Some (sender alice).
Proof.
  split; [split; [vm_compute; reflexivity | discriminate]|].
  destruct (second_register_rejects_atomically registered bob h1 (sender alice))
    as (H1 & H2 & H3 & _); [vm_compute; reflexivity | discriminate |].
  exact (conj H1 (conj H2 H3)).
Defined.

(** C5. On a hash without an entry, [verify_certificate] returns the empty
    byte string; it never rejects and never writes, whether the hash has an
    entry or not. *)
Theorem verify_unregistered_returns_empty (s : State) (h : Bytes) :
  certificates s !! h = None →
  verify_certificate h s = (Ok empty_bytes, s)
  ∧ (∀ (s0 : State) (h0 : Bytes),
       (∃ owner, verify_certificate h0 s0 = (Ok owner, s0))
       ∧ ¬ rejects (verify_certificate h0 s0)
       ∧ ∀ txn, apply_call txn (Verify h0) s0 = s0).
Proof.
  intros Hnone. split.
  - by rewrite verify_certificate_eq, Hnone.
  - intros s0 h0. rewrite verify_certificate_eq. simpl.
    split; [by eexists|].
    split; [intros [msg Hmsg]; discriminate Hmsg|].
    intros txn. by rewrite apply_call_eq.
Qed.

Lemma verify_unregistered_returns_empty_witness :
  certificates registered !! [Byte.x00] = None
  ∧ verify_certificate [Byte.x00] registered = (Ok empty_bytes, registered).
Proof.
  split; [reflexivity|].
  apply (verify_unregistered_returns_empty registered [Byte.x00]). reflexivity.
Defined.

(** C6, as stated, fails: in a state the contract reaches, a call changes
    the stored owner of an existing entry although its sender is not that
    stored owner. *)
Lemma owner_changed_by_another_sender :
  ¬ (∀ (s : State) (txn : Txn) (c : call) (h O : Bytes),
       reachable s → is_address (sender txn) →
       certificates s !! h = Some O →
       certificates (apply_call txn c s) !! h ≠ Some O →
       sender txn = O).
Proof.
  intros Hclaim.
  assert (sender bob = empty_bytes) as Hbob; [|discriminate Hbob].
  apply (Hclaim orphaned bob (Register h1) h1 empty_bytes
           orphaned_reachable eq_refl orphaned_lookup).
  vm_compute. discriminate.
Qed.

(** C6, amended. Whenever a call changes the stored owner of an existing
    entry, either its sender is the owner stored before the call, or the
    stored owner was the empty byte string and the call is
    [register_certificate] on that hash. *)
Theorem only_owner_changes_owner
    (s : State) (txn : Txn) (c : call) (h O : Bytes) :
  certificates s !! h = Some O →
  certificates (apply_call txn c s) !! h ≠ Some O →
  sender txn = O ∨ (O = empty_bytes ∧ c = Register h).
Proof.
  intros HO. rewrite apply_call_eq.
  destruct c as [h'|h'|h' n]; unfold run, bind, ret.
  - rewrite register_certificate_eq.
    destruct (decide (h' = h)) as [->|Hh].
    + rewrite HO. simpl. case_bool_decide; simpl; [auto | congruence].
    + case_bool_decide; simpl; [|congruence].
      rewrite lookup_insert_ne by done. congruence.
  - rewrite verify_certificate_eq. simpl. congruence.
  - rewrite transfer_certificate_eq. simpl.
    destruct (decide (h' = h)) as [->|Hh].
    + rewrite HO. simpl. repeat case_bool_decide; simpl; auto; congruence.
    + repeat case_bool_decide; simpl; try congruence.
      rewrite lookup_insert_ne by done. congruence.
Qed.

Lemma only_owner_changes_owner_witness :
  (certificates registered !! h1 = Some (sender alice)
   ∧ certificates (apply_call alice (Transfer h1 (sender bob)) registered) !! h1
       ≠ Some (sender alice))
  ∧ (sender alice = sender alice
     ∨ (sender alice = empty_bytes ∧ Transfer h1 (sender bob) = Register h1)).
Proof.
  split; [split; [vm_compute; reflexivity | vm_compute; discriminate]|].
  apply (only_owner_changes_owner registered alice (Transfer h1 (sender bob)) h1
           (sender alice));
    [vm_compute; reflexivity | vm_compute; discriminate].
Defined.

End RegistryProofs.

(** * Properties of the certificate digest *)

Module GenCertProofs.
Import Text Py GenCert Samples.

(** The digest is a function of the five fields alone. *)
Lemma hash_input_same_fields (d1 d2 : dict) :
  (∀ k, k ∈ digest_keys → d1 !! k = d2 !! k) →
  hash_input d1 = hash_input d2.
Proof.
  intros Hsame. unfold hash_input, getitem, digest_keys in *.
  rewrite !Hsame by (repeat (apply list_elem_of_here || apply list_elem_of_further)).
  reflexivity.
Qed.

Lemma calculated_hash_of_fields (details : dict) (ve vo vd vn va : value) :
  details !! "event" = Some ve →
  details !! "organizer" = Some vo →
  details !! "date" = Some vd →
  details !! "recipient_name" = Some vn →
  details !! "recipient_address" = Some va →
  calculated_hash details
  = Return (SHA256.hexdigest
              (encode (str ve ++ "|" ++ str vo ++ "|" ++ str vd ++ "|"
                       ++ str vn ++ "|" ++ str va))).
Proof.
  intros He Ho Hd Hn Ha.
  unfold calculated_hash, hash_input, getitem.
  rewrite He, Ho, Hd, Hn, Ha. reflexivity.
Qed.

Example sample_digest :
  calculated_hash sample_details
  = Return "bf7871fbc37667d018c6a27a65eb274ec0fad6ef6f395df80108cf2d2d39aed1".
Proof. vm_compute. reflexivity. Qed.

(** A field that is not a string enters the digest as Python prints it. *)
Example digest_of_missing_name :
  hash_input (<["recipient_name" := PNone]> sample_details)
  = Return "Rise Hackathon 2025|University Institute of Technology|2025-09-16|None|ADDR".
Proof. vm_compute. reflexivity. Qed.

(** The order of the fields matters. *)
Example digest_is_order_sensitive :
  calculated_hash (<["event" := PStr "University Institute of Technology"]>
                   (<["organizer" := PStr "Rise Hackathon 2025"]> sample_details))
  ≠ calculated_hash sample_details.
Proof. vm_compute. discriminate. Qed.

(** C7. The digest computed by [verify_certificate_hash] is the SHA-256 of
    event, organizer, date, recipient name and recipient address, in that
    order, joined by a vertical bar (each field as Python prints it, a
    string as itself); the check succeeds exactly on that digest; and any
    details with the same five fields give the same digest. *)
Theorem digest_is_sha256_of_joined_fields
    (details : dict) (ve vo vd vn va : value) :
  details !! "event" = Some ve →
  details !! "organizer" = Some vo →
  details !! "date" = Some vd →
  details !! "recipient_name" = Some vn →
  details !! "recipient_address" = Some va →
  let joined := str ve ++ "|" ++ str vo ++ "|" ++ str vd ++ "|"
                ++ str vn ++ "|" ++ str va in
  calculated_hash details = Return (SHA256.hexdigest (encode joined))
  ∧ (∀ e o d n a : string,
       ve = PStr e → vo = PStr o → vd = PStr d → vn = PStr n → va = PStr a →
       calculated_hash details = Return (spec_digest e o d n a))
  ∧ (∀ h : string,
       h ≠ EmptyString →
       verify_certificate_hash details (PStr h)
         = Return (bool_decide (SHA256.hexdigest (encode joined) = h)))
  ∧ (∀ details' : dict,
       (∀ k, k ∈ digest_keys → details' !! k = details !! k) →
       calculated_hash details' = calculated_hash details).
Proof.
  intros He Ho Hd Hn Ha joined.
  pose proof (calculated_hash_of_fields details ve vo vd vn va He Ho Hd Hn Ha)
    as Hcalc.
  split; [exact Hcalc|]. split; [|split].
  - intros e o d n a -> -> -> -> ->. exact Hcalc.
  - intros h Hh. unfold verify_certificate_hash. simpl.
    rewrite (bool_decide_eq_false_2 (h = EmptyString)) by done. simpl.
    rewrite bool_decide_eq_false_2.
    + rewrite Hcalc. reflexivity.
    + intros ->. rewrite lookup_empty in He. discriminate He.
  - intros details' Hsame. unfold calculated_hash.
    by rewrite (hash_input_same_fields details' details Hsame).
Qed.

Lemma digest_is_sha256_of_joined_fields_witness :
  calculated_hash sample_details
  = Return (SHA256.hexdigest
              (encode ("Rise Hackathon 2025" ++ "|"
                       ++ "University Institute of Technology" ++ "|"
                       ++ "2025-09-16" ++ "|" ++ "Asha Rao" ++ "|" ++ "ADDR"))).
Proof.
  apply (digest_is_sha256_of_joined_fields sample_details
           (PStr "Rise Hackathon 2025")
           (PStr "University Institute of Technology")
           (PStr "2025-09-16") (PStr "Asha Rao") (PStr "ADDR")); reflexivity.
Defined.

End GenCertProofs.

(** * Properties of the two minting scripts *)

Module MintProofs.
Import Text Py Mint Samples.

(** mint_nft.py writes the bytes the hexadecimal [certificate_hash] denotes
    into the metadata hash, and the JSON of the metadata into the note. *)
Lemma mint_nft_embeds_denoted_digest
    (deployer_address : string) (json_dumps : dict → string)
    (nft_metadata : dict) (hex : string) (digest : Bytes) :
  nft_metadata !! "certificate_hash" = Some (PStr hex) →
  denoted_digest hex = Some digest →
  ∃ txn, mint_nft deployer_address json_dumps nft_metadata = Return txn
         ∧ metadata_hash txn = digest
         ∧ note txn = encode (json_dumps nft_metadata)
         ∧ total txn = 1%Z ∧ decimals txn = 0%Z.
Proof.
  intros Hkey Hhex. unfold mint_nft, getitem, denoted_digest in *.
  rewrite Hkey. simpl. rewrite Hhex. simpl. by eexists.
Qed.

(** C8. At the example certificate hash, mint_nft.py embeds the 32 bytes the
    hash denotes, and mint.py embeds other bytes: the SHA-256 of the 64
    characters of the hexadecimal text. Both write the serialized fields
    into the note of the same transaction. *)
Theorem mint_api_embeds_hash_of_hex_text
    (deployer_address : string) (json_dumps : dict → string)
    (payload_json : NFTPayload → string) :
  let by_script := mint_nft deployer_address json_dumps sample_metadata in
  let by_api := mint_nft_api deployer_address payload_json sample_payload in
  (∃ txn, by_script = Return txn
          ∧ Some (metadata_hash txn) = denoted_digest sample_hash
          ∧ hexlify (metadata_hash txn) = sample_hash
          ∧ note txn = encode (json_dumps sample_metadata))
  ∧ Some (metadata_hash by_api) ≠ denoted_digest (certificate_hash sample_payload)
  ∧ hexlify (metadata_hash by_api)
      = "9fac355710bb2183bf0cdf2c15c151b1c81d923a5586e7aab065b5fb6ebf889f"
  ∧ note by_api = encode (payload_json sample_payload).
Proof.
  intros by_script by_api. split; [|split; [|split]].
  - eexists. split; [reflexivity|]. split; [|split]; [| |reflexivity];
      vm_compute; reflexivity.
  - vm_compute. discriminate.
  - vm_compute. reflexivity.
  - reflexivity.
Qed.

End MintProofs.

(** * Properties of the off-chain verifier *)

Module VerifyProofs.
Import Text Py Verify Samples.

(** ** Substring search *)

Lemma append_nil (s : string) : EmptyString ++ s = s.
Proof. reflexivity. Qed.

Lemma append_cons (c : ascii) (s t : string) : String c s ++ t = String c (s ++ t).
Proof. reflexivity. Qed.

Lemma prefix_iff (sub s : string) :
  String.prefix sub s = true ↔ ∃ post, s = sub ++ post.
Proof.
  revert s. induction sub as [|c sub IH]; intros s; simpl.
  - split; [intros _; by exists s | by destruct s].
  - setoid_rewrite append_cons. destruct s as [|c' s]; simpl.
    + split; [discriminate | intros [post Hpost]; discriminate Hpost].
    + destruct (Ascii.ascii_dec c c') as [->|Hc].
      * rewrite IH. split; intros [post Hpost]; exists post; congruence.
      * split; [discriminate | intros [post Hpost]; congruence].
Qed.

Lemma contains_iff (sub s : string) :
  contains sub s = true ↔ ∃ pre post, s = pre ++ sub ++ post.
Proof.
  induction s as [|c s IH].
  - change (contains sub EmptyString)
      with (String.prefix sub EmptyString || false).
    rewrite orb_false_r, prefix_iff. split.
    + intros [post Hpost]. by exists EmptyString, post.
    + intros (pre & post & Heq). destruct pre; [by exists post|].
      rewrite append_cons in Heq. discriminate Heq.
  - change (contains sub (String c s))
      with (String.prefix sub (String c s) || contains sub s).
    rewrite orb_true_iff, prefix_iff, IH. split.
    + intros [[post Hpost] | (pre & post & Heq)].
      * by exists EmptyString, post.
      * exists (String c pre), post. by rewrite append_cons, Heq.
    + intros (pre & post & Heq). destruct pre as [|c' pre].
      * left. by exists post.
      * right. exists pre, post. rewrite append_cons in Heq. congruence.
Qed.

(** ** Python equality against a string or an integer *)

Lemma py_eq_str (v : value) (s : string) : py_eq v (PStr s) = true ↔ v = PStr s.
Proof.
  destruct v; simpl; try (split; [discriminate | congruence]).
  rewrite bool_decide_eq_true. split; congruence.
Qed.

Lemma py_eq_int (v : value) (z : Z) : py_eq v (PInt z) = true ↔ equals_int v z.
Proof.
  unfold equals_int. destruct v; simpl.
  - split; [discriminate | intros [H | (b & H & _)]; discriminate H].
  - rewrite bool_decide_eq_true. split.
    + intros <-. right. by eexists.
    + intros [H | (b' & H & <-)]; [discriminate H | congruence].
  - rewrite bool_decide_eq_true. split.
    + intros <-. by left.
    + intros [H | (b' & H & _)]; [congruence | discriminate H].
  - split; [discriminate | intros [H | (b & H & _)]; discriminate H].
Qed.

Lemma get_is_str (d : dict) (k s : string) : get d k = PStr s ↔ d !! k = Some (PStr s).
Proof.
  unfold get. destruct (d !! k); simpl; split; congruence.
Qed.

(** ** The aggregate *)

Lemma overall_valid_iff (r : Checks) :
  overall_valid r = true
  ↔ is_nft r = true ∧ correct_unit_name r = true
    ∧ correct_name_format r = true ∧ correct_creator r = true.
Proof.
  destruct r as [[] [] [] []]; vm_compute; intuition discriminate.
Qed.

(** A returned structure check read the name as a string. *)
Lemma verify_poap_structure_inv
    (deployer_address : string) (info : AssetInfo) (r : Checks) (q : dict) :
  verify_poap_structure deployer_address info = Return (r, q) →
  ∃ name,
    get_or q "name" (PStr EmptyString) = PStr name
    ∧ q = default ∅ (params_of info)
    ∧ r = {| is_nft := py_eq (get q "total") (PInt 1)
                       && py_eq (get q "decimals") (PInt 0);
             correct_unit_name := py_eq (get q "unit-name") (PStr "POAP");
             correct_name_format := contains "POAP" name;
             correct_creator := py_eq (get q "creator") (PStr deployer_address) |}.
Proof.
  unfold verify_poap_structure. cbv zeta.
  generalize (default ∅ (params_of info)). intros p.
  remember (get_or p "name" (PStr EmptyString)) as nm eqn:Hname.
  destruct nm as [| | |name]; simpl; try discriminate.
  intros [= <- <-]. by exists name.
Qed.

(** What each of the four checks decides. *)
Lemma verify_poap_structure_checks
    (deployer_address : string) (info : AssetInfo) (r : Checks) (q : dict) :
  verify_poap_structure deployer_address info = Return (r, q) →
  q = default ∅ (params_of info)
  ∧ length (values r) = 4%nat
  ∧ (is_nft r = true
     ↔ equals_int (get q "total") 1 ∧ equals_int (get q "decimals") 0)
  ∧ (correct_unit_name r = true ↔ q !! "unit-name" = Some (PStr "POAP"))
  ∧ (correct_name_format r = true
     ↔ ∃ pre post,
         get_or q "name" (PStr EmptyString) = PStr (pre ++ "POAP" ++ post))
  ∧ (correct_creator r = true ↔ q !! "creator" = Some (PStr deployer_address)).
Proof.
  intros (name & Hname & Hq & ->)%verify_poap_structure_inv. simpl.
  split; [done|]. split; [done|]. split; [|split; [|split]].
  - by rewrite andb_true_iff, !py_eq_int.
  - by rewrite py_eq_str, get_is_str.
  - rewrite contains_iff, Hname. split.
    + intros (pre & post & ->). by exists pre, post.
    + intros (pre & post & [= ->]). by exists pre, post.
  - by rewrite py_eq_str, get_is_str.
Qed.

(** The structure check returns whenever the name is a string or is absent. *)
Lemma verify_poap_structure_returns
    (deployer_address : string) (info : AssetInfo) (name : string) :
  get_or (default ∅ (params_of info)) "name" (PStr EmptyString) = PStr name →
  ∃ r, verify_poap_structure deployer_address info
       = Return (r, default ∅ (params_of info)).
Proof.
  intros Hname. unfold verify_poap_structure. cbv zeta. rewrite Hname.
  by eexists.
Qed.

(** The scenario: every check passes. *)
Lemma verify_poap_structure_minted
    (deployer_address : string) (p : dict) (pre post : string) :
  p !! "total" = Some (PInt 1) →
  p !! "decimals" = Some (PInt 0) →
  p !! "unit-name" = Some (PStr "POAP") →
  p !! "name" = Some (PStr (pre ++ "POAP" ++ post)) →
  p !! "creator" = Some (PStr deployer_address) →
  verify_poap_structure deployer_address (mkAssetInfo (Some p))
    = Return (mkChecks true true true true, p).
Proof.
  intros Ht Hd Hu Hn Hc. unfold verify_poap_structure, get, get_or. simpl.
  rewrite Ht, Hd, Hu, Hn, Hc. simpl.
  assert (contains "POAP" (pre ++ "POAP" ++ post) = true) as ->
    by (apply contains_iff; by exists pre, post).
  rewrite !bool_decide_eq_true_2 by done. reflexivity.
Qed.

(** ** The verifier on a ledger *)

(** C9. The structure check computes four booleans: [is_nft] (total equals
    1 and decimals equals 0), [correct_unit_name] (unit name equals "POAP"),
    [correct_name_format] (the name contains "POAP") and [correct_creator]
    (creator equals the deployer address), and [overall_valid] holds exactly
    when the four hold. For an asset with total 1, decimals 0, unit name
    "POAP", a name containing "POAP" and the deployer as creator, the four
    checks pass and the aggregate is valid. *)
Theorem structural_verification_four_checks
    {Note : Type} (deployer_address : string) (clients : Clients Note)
    (id : Z) (p : dict) (pre post : string) :
  algod_asset_info clients id = Return (mkAssetInfo (Some p)) →
  p !! "total" = Some (PInt 1) →
  p !! "decimals" = Some (PInt 0) →
  p !! "unit-name" = Some (PStr "POAP") →
  p !! "name" = Some (PStr (pre ++ "POAP" ++ post)) →
  p !! "creator" = Some (PStr deployer_address) →
  comprehensive_verification deployer_address clients id
    = Return (mkReport id p (mkChecks true true true true)
                       (extract_note_from_creation_tx clients id) true)
  ∧ verify_poap deployer_address clients id
    = Return (VerifyResponse id (mkChecks true true true true)
                             (extract_note_from_creation_tx clients id) true)
  ∧ (∀ r : Checks,
       overall_valid r = true
       ↔ is_nft r = true ∧ correct_unit_name r = true
         ∧ correct_name_format r = true ∧ correct_creator r = true)
  ∧ (∀ (info : AssetInfo) (r : Checks) (q : dict),
       verify_poap_structure deployer_address info = Return (r, q) →
       length (values r) = 4%nat
       ∧ (is_nft r = true
          ↔ equals_int (get q "total") 1 ∧ equals_int (get q "decimals") 0)
       ∧ (correct_unit_name r = true ↔ q !! "unit-name" = Some (PStr "POAP"))
       ∧ (correct_name_format r = true
          ↔ ∃ pre' post',
              get_or q "name" (PStr EmptyString) = PStr (pre' ++ "POAP" ++ post'))
       ∧ (correct_creator r = true
          ↔ q !! "creator" = Some (PStr deployer_address)))
  ∧ (∀ (info : AssetInfo) (name : string),
       get_or (default ∅ (params_of info)) "name" (PStr EmptyString) = PStr name →
       ∃ r, verify_poap_structure deployer_address info
            = Return (r, default ∅ (params_of info))).
Proof.
  intros Hinfo Ht Hd Hu Hn Hc.
  pose proof (verify_poap_structure_minted deployer_address p pre post
                Ht Hd Hu Hn Hc) as Hchecks.
  split; [|split; [|split; [|split]]].
  - unfold comprehensive_verification, get_asset_info.
    rewrite Hinfo. simpl. rewrite Hchecks. reflexivity.
  - unfold verify_poap. rewrite Hinfo, Hchecks. reflexivity.
  - apply overall_valid_iff.
  - intros info r q Hret.
    by destruct (verify_poap_structure_checks _ _ _ _ Hret) as (_ & ?).
  - intros info name. apply verify_poap_structure_returns.
Qed.

Lemma structural_verification_four_checks_witness :
  comprehensive_verification "DEPLOYER" (one_asset_ledger "DEPLOYER") 745899830
  = Return (mkReport 745899830 (minted_params "DEPLOYER")
                     (mkChecks true true true true) PNone true)
  ∧ verify_poap "DEPLOYER" (one_asset_ledger "DEPLOYER") 745899830
  = Return (VerifyResponse 745899830 (mkChecks true true true true) PNone true).
Proof.
  destruct (structural_verification_four_checks "DEPLOYER"
              (one_asset_ledger "DEPLOYER") 745899830 (minted_params "DEPLOYER")
              EmptyString "-RiseHack25-RDS") as (Hall & Hone & _);
    [reflexivity .. |].
  exact (conj Hall Hone).
Defined.

(** One identifier that algod does not know makes the whole batch raise,
    wherever it stands in the list. *)
Lemma verify_multiple_poaps_raises
    {Note : Type} (deployer_address : string) (clients : Clients Note)
    (asset_ids : list Z) (missing : Z) (e : exn) :
  algod_asset_info clients missing = Raise e →
  missing ∈ asset_ids →
  ∃ e', verify_multiple_poaps deployer_address clients asset_ids = Raise e'.
Proof.
  intros Hmissing Hin.
  induction asset_ids as [|a rest IH]; [by apply elem_of_nil in Hin|].
  simpl. apply elem_of_cons in Hin as [<- | Hin].
  - unfold comprehensive_verification at 1, get_asset_info.
    rewrite Hmissing. by eexists.
  - destruct (comprehensive_verification _ _ a) as [r|e1]; simpl; [|by eexists].
    destruct (IH Hin) as [e' ->]. by eexists.
Qed.

(** The single-asset route answers with the error object instead. *)
Lemma verify_poap_not_found
    {Note : Type} (deployer_address : string) (clients : Clients Note)
    (missing : Z) (e : exn) :
  algod_asset_info clients missing = Raise e →
  (∀ indexer_asset_info, indexer_client clients = Some indexer_asset_info →
     ∃ e2, indexer_asset_info missing = Raise e2) →
  verify_poap deployer_address clients missing
  = Return (ErrorResponse missing "asset does not exist on TestNet").
Proof.
  intros Halgod Hindexer. unfold verify_poap. rewrite Halgod.
  destruct (indexer_client clients) as [ix|]; [|done].
  by destruct (Hindexer ix eq_refl) as [e2 ->].
Qed.

(** C10. On a ledger without asset 999, [POST /verify] returns the error
    object for 999, while [POST /verify-multiple] with the list [999] (and
    with a list where 999 follows an existing asset) raises the exception
    of the algod client and returns no result. *)
Theorem verify_multiple_raises_on_missing_asset (deployer_address : string) :
  let ledger := one_asset_ledger deployer_address in
  algod_asset_info ledger 999 = Raise (HTTPError "asset does not exist")
  ∧ verify_poap deployer_address ledger 999
    = Return (ErrorResponse 999 "asset does not exist on TestNet")
  ∧ verify_multiple_poaps deployer_address ledger [999%Z]
    = Raise (HTTPError "asset does not exist")
  ∧ verify_multiple_poaps deployer_address ledger [745899830%Z; 999%Z]
    = Raise (HTTPError "asset does not exist").
Proof.
  intros ledger. split; [reflexivity|]. split; [reflexivity|].
  split; [reflexivity|].
  unfold verify_multiple_poaps, comprehensive_verification, get_asset_info.
  simpl. reflexivity.
Qed.

End VerifyProofs.

(** * Further properties of the registry contract *)

Module RegistryRunsProofs.
Import Registry RegistryRuns Samples.

(** The storage a call leaves, by cases on the call. *)
Lemma apply_call_certificates txn c s :
  certificates (apply_call txn c s) = certificates s
  ∨ (∃ h, c = Register h
          ∧ default empty_bytes (certificates s !! h) = empty_bytes
          ∧ certificates (apply_call txn c s) = <[h := sender txn]> (certificates s))
  ∨ (∃ h n, c = Transfer h n
            ∧ certificates s !! h = Some (sender txn)
            ∧ sender txn ≠ empty_bytes
            ∧ certificates (apply_call txn c s) = <[h := n]> (certificates s)).
Proof.
  rewrite RegistryProofs.apply_call_eq.
  destruct c as [h|h|h n]; unfold run, bind, ret.
  - rewrite RegistryProofs.register_certificate_eq.
    case_bool_decide; simpl; [|by left].
    right. left. by exists h.
  - rewrite RegistryProofs.verify_certificate_eq. by left.
  - rewrite RegistryProofs.transfer_certificate_eq. simpl.
    case_bool_decide as Hempty; simpl; [by left|].
    case_bool_decide as Howner; simpl; [|by left].
    right. right. exists h, n. split; [done|].
    destruct (certificates s !! h) as [o|] eqn:E; simpl in *; [|done].
    subst o. done.
Qed.

(** X1. A call leaves the entry of every hash other than the one it names
    as it was. *)
Theorem call_leaves_other_hashes
    (s : State) (txn : Txn) (c : call) (h : Bytes) :
  target c ≠ h →
  certificates (apply_call txn c s) !! h = certificates s !! h.
Proof.
  intros Hne.
  destruct (apply_call_certificates txn c s)
    as [-> | [(h' & -> & _ & ->) | (h' & n & -> & _ & _ & ->)]];
    [done | |]; simpl in Hne; by rewrite lookup_insert_ne.
Qed.

Lemma call_leaves_other_hashes_witness :
  target (Transfer h1 (sender bob)) ≠ [Byte.x00]
  ∧ certificates (apply_call alice (Transfer h1 (sender bob)) registered)
      !! [Byte.x00]
    = certificates registered !! [Byte.x00].
Proof.
  split; [discriminate|].
  apply (call_leaves_other_hashes registered alice (Transfer h1 (sender bob))
           [Byte.x00]).
  discriminate.
Defined.

Lemma apply_call_keeps_entry txn c s h :
  is_Some (certificates s !! h) →
  is_Some (certificates (apply_call txn c s) !! h).
Proof.
  intros Hsome.
  destruct (apply_call_certificates txn c s)
    as [-> | [(h' & -> & _ & ->) | (h' & n & -> & _ & _ & ->)]];
    [done | |]; rewrite lookup_insert_is_Some; destruct (decide (h' = h)); auto.
Qed.

(** X2. No sequence of calls removes an entry: a hash that has an entry
    keeps one, whoever sends the calls and whatever they are. *)
Theorem entries_are_never_removed
    (cs : list (Txn * call)) (s : State) (h : Bytes) :
  is_Some (certificates s !! h) →
  is_Some (certificates (apply_calls cs s) !! h).
Proof.
  revert s. induction cs as [|[txn c] rest IH]; intros s Hsome; [done|].
  simpl. apply IH. by apply apply_call_keeps_entry.
Qed.

Lemma entries_are_never_removed_witness :
  is_Some (certificates registered !! h1)
  ∧ is_Some (certificates
               (apply_calls [(alice, Transfer h1 empty_bytes);
                             (bob, Register h1);
                             (bob, Transfer h1 (sender carol))] registered)
             !! h1).
Proof.
  split; [by eexists|].
  apply (entries_are_never_removed
           [(alice, Transfer h1 empty_bytes); (bob, Register h1);
            (bob, Transfer h1 (sender carol))] registered h1).
  by eexists.
Defined.

Lemma apply_call_keeps_owner txn c s h O :
  O ≠ empty_bytes →
  sender txn ≠ O →
  certificates s !! h = Some O →
  certificates (apply_call txn c s) !! h = Some O.
Proof.
  intros HO Hsender Hlookup.
  destruct (apply_call_certificates txn c s)
    as [-> | [(h' & -> & Hfree & ->) | (h' & n & -> & Howner & _ & ->)]];
    [done | |]; destruct (decide (h' = h)) as [->|Hh].
  - rewrite Hlookup in Hfree. done.
  - by rewrite lookup_insert_ne.
  - rewrite Hlookup in Howner. congruence.
  - by rewrite lookup_insert_ne.
Qed.

(** X3. The owner on file of a hash, when it is not the empty string, stays
    the same through every sequence of calls none of which is sent by that
    owner. *)
Theorem owner_kept_while_others_call
    (cs : list (Txn * call)) (s : State) (h O : Bytes) :
  O ≠ empty_bytes →
  Forall (λ tc, sender tc.1 ≠ O) cs →
  certificates s !! h = Some O →
  certificates (apply_calls cs s) !! h = Some O.
Proof.
  intros HO Hothers. revert s.
  induction Hothers as [|[txn c] rest Hhead _ IH]; intros s Hlookup; [done|].
  simpl. apply IH. by apply apply_call_keeps_owner.
Qed.

Lemma owner_kept_while_others_call_witness :
  (sender alice ≠ empty_bytes
   ∧ Forall (λ tc, sender tc.1 ≠ sender alice)
            [(bob, Transfer h1 (sender bob)); (carol, Register h1)]
   ∧ certificates registered !! h1 = Some (sender alice))
  ∧ certificates
      (apply_calls [(bob, Transfer h1 (sender bob)); (carol, Register h1)]
                   registered) !! h1
    = Some (sender alice).
Proof.
  assert (Forall (λ tc, sender tc.1 ≠ sender alice)
                 [(bob, Transfer h1 (sender bob)); (carol, Register h1)]) as Hothers
    by (repeat constructor; discriminate).
  split; [split; [discriminate | split; [exact Hothers | vm_compute; reflexivity]]|].
  apply (owner_kept_while_others_call
           [(bob, Transfer h1 (sender bob)); (carol, Register h1)]
           registered h1 (sender alice));
    [discriminate | exact Hothers | vm_compute; reflexivity].
Defined.

(** X4. A certificate transferred to a value that is neither empty nor the
    32 bytes of an account is frozen: no sequence of calls sent by accounts
    changes its owner on file. *)
Theorem orphaned_certificate_is_frozen
    (cs : list (Txn * call)) (s : State) (h O : Bytes) :
  O ≠ empty_bytes →
  ¬ is_address O →
  Forall (λ tc, is_address (sender tc.1)) cs →
  certificates s !! h = Some O →
  certificates (apply_calls cs s) !! h = Some O.
Proof.
  intros HO Hnot Hsenders. revert s.
  induction Hsenders as [|[txn c] rest Hhead _ IH]; intros s Hlookup; [done|].
  simpl. apply IH. apply apply_call_keeps_owner; [done | | done].
  intros Heq. apply Hnot. by rewrite <- Heq.
Qed.

Lemma orphaned_certificate_is_frozen_witness :
  let typo := [Byte.x0b; Byte.x0b] in
  let s := apply_call alice (Transfer h1 typo) registered in
  let cs := [(alice, Transfer h1 (sender alice)); (bob, Register h1);
             (bob, Transfer h1 (sender bob))] in
  certificates s !! h1 = Some typo
  ∧ certificates (apply_calls cs s) !! h1 = Some typo.
Proof.
  intros typo s cs. split; [vm_compute; reflexivity|].
  apply (orphaned_certificate_is_frozen cs s h1 typo);
    [discriminate | discriminate | repeat constructor | vm_compute; reflexivity].
Defined.

End RegistryRunsProofs.

(** * Properties of the hexadecimal codec and of the digest *)

Module CodecProofs.
Import Text SHA256 Hex.

Lemma byte_of_nibbles (x : Byte.byte) :
  byte_of_Z (16 * (Z_of_byte x / 16) + Z_of_byte x mod 16) = x.
Proof. destruct x; vm_compute; reflexivity. Qed.

Lemma hex_value_high (x : Byte.byte) :
  hex_value (hex_digit (Z_of_byte x / 16)) = Some (Z_of_byte x / 16)%Z.
Proof. destruct x; vm_compute; reflexivity. Qed.

Lemma hex_value_low (x : Byte.byte) :
  hex_value (hex_digit (Z_of_byte x mod 16)) = Some (Z_of_byte x mod 16)%Z.
Proof. destruct x; vm_compute; reflexivity. Qed.

Lemma hex_digits_lower (x : Byte.byte) :
  is_lower_hex_digit (hex_digit (Z_of_byte x / 16)) = true
  ∧ is_lower_hex_digit (hex_digit (Z_of_byte x mod 16)) = true.
Proof. destruct x; vm_compute; split; reflexivity. Qed.

Lemma hexlify_cons (x : Byte.byte) (b : Bytes) :
  hexlify (x :: b)
  = String (hex_digit (Z_of_byte x / 16))
      (String (hex_digit (Z_of_byte x mod 16)) (hexlify b)).
Proof. reflexivity. Qed.

Lemma unhexlify_cons2 (hi lo : ascii) (rest : string) :
  unhexlify (String hi (String lo rest))
  = match hex_value hi, hex_value lo, unhexlify rest with
    | Some h, Some l, Some bs => Some (byte_of_Z (16 * h + l) :: bs)
    | _, _, _ => None
    end.
Proof. reflexivity. Qed.

(** Decoding what [hexlify] printed gives the bytes back. *)
Lemma unhexlify_hexlify (b : Bytes) : unhexlify (hexlify b) = Some b.
Proof.
  induction b as [|x b IH]; [reflexivity|].
  rewrite hexlify_cons, unhexlify_cons2, hex_value_high, hex_value_low, IH.
  by rewrite byte_of_nibbles.
Qed.

Lemma hexlify_length (b : Bytes) : String.length (hexlify b) = (2 * length b)%nat.
Proof.
  induction b as [|x b IH]; [reflexivity|].
  rewrite hexlify_cons. simpl. rewrite IH. lia.
Qed.

Lemma hexlify_is_lower_hex (b : Bytes) : is_lower_hex (hexlify b) = true.
Proof.
  induction b as [|x b IH]; [reflexivity|].
  rewrite hexlify_cons. simpl.
  destruct (hex_digits_lower x) as [-> ->]. by rewrite IH.
Qed.

(** Induction on strings two characters at a time. *)
Lemma string_pair_ind (P : string → Prop) :
  P EmptyString →
  (∀ c, P (String c EmptyString)) →
  (∀ hi lo rest, P rest → P (String hi (String lo rest))) →
  ∀ s, P s.
Proof.
  intros Hnil Hone Hpair.
  assert (∀ s, P s ∧ ∀ c, P (String c s)) as Hboth.
  { induction s as [|c s [IH1 IH2]]; [by split|].
    split; [apply IH2 | intros c'; by apply Hpair]. }
  intros s. apply Hboth.
Qed.

Lemma unhexlify_length (s : string) (b : Bytes) :
  unhexlify s = Some b → String.length s = (2 * length b)%nat.
Proof.
  revert b. induction s as [| c | hi lo rest IH] using string_pair_ind; intros b.
  - intros [= <-]. reflexivity.
  - discriminate.
  - rewrite unhexlify_cons2.
    destruct (hex_value hi), (hex_value lo), (unhexlify rest) as [bs|];
      try discriminate.
    intros [= <-]. simpl. rewrite (IH bs eq_refl). lia.
Qed.

(** Every character is one of the 256 that [ascii_of_nat] lists. *)
Lemma ascii_in_range (c : ascii) : In c (map ascii_of_nat (seq 0 256)).
Proof.
  rewrite <- (ascii_nat_embedding c).
  apply in_map, in_seq. pose proof (nat_ascii_bounded c). lia.
Qed.

Lemma hex_digit_of_lower (c : ascii) (v : Z) :
  is_lower_hex_digit c = true → hex_value c = Some v → hex_digit v = c.
Proof.
  assert (forallb (λ c,
            implb (is_lower_hex_digit c)
                  (match hex_value c with
                   | Some v => bool_decide (hex_digit v = c)
                   | None => true
                   end))
            (map ascii_of_nat (seq 0 256)) = true) as Hall
    by (vm_compute; reflexivity).
  rewrite forallb_forall in Hall. specialize (Hall c (ascii_in_range c)).
  intros Hlower Hv. rewrite Hlower, Hv in Hall. simpl in Hall.
  by apply bool_decide_eq_true in Hall.
Qed.

Lemma hex_value_range (c : ascii) (v : Z) :
  hex_value c = Some v → (0 <= v < 16)%Z.
Proof.
  assert (forallb (λ c,
            match hex_value c with
            | Some v => (0 <=? v)%Z && (v <? 16)%Z
            | None => true
            end)
            (map ascii_of_nat (seq 0 256)) = true) as Hall
    by (vm_compute; reflexivity).
  rewrite forallb_forall in Hall. specialize (Hall c (ascii_in_range c)).
  intros Hv. rewrite Hv in Hall. lia.
Qed.

Lemma nibble_in_range (v : Z) :
  (0 <= v < 16)%Z → In v (map Z.of_nat (seq 0 16)).
Proof.
  intros Hv. rewrite <- (Z2Nat.id v) by lia.
  apply in_map, in_seq. lia.
Qed.

Lemma nibbles_of_byte (h l : Z) :
  (0 <= h < 16)%Z → (0 <= l < 16)%Z →
  (Z_of_byte (byte_of_Z (16 * h + l)) / 16 = h
   ∧ Z_of_byte (byte_of_Z (16 * h + l)) mod 16 = l)%Z.
Proof.
  intros Hh Hl.
  assert (forallb (λ h, forallb (λ l,
            (Z_of_byte (byte_of_Z (16 * h + l)) / 16 =? h)%Z
            && (Z_of_byte (byte_of_Z (16 * h + l)) mod 16 =? l)%Z)
            (map Z.of_nat (seq 0 16))) (map Z.of_nat (seq 0 16)) = true) as Hall
    by (vm_compute; reflexivity).
  rewrite forallb_forall in Hall.
  specialize (Hall h (nibble_in_range h Hh)).
  rewrite forallb_forall in Hall.
  specialize (Hall l (nibble_in_range l Hl)).
  apply andb_true_iff in Hall as [H1 H2].
  split; by apply Z.eqb_eq.
Qed.

(** Printing what [unhexlify] decoded gives lowercase text back. *)
Lemma hexlify_unhexlify (s : string) (b : Bytes) :
  is_lower_hex s = true → unhexlify s = Some b → hexlify b = s.
Proof.
  revert b. induction s as [| c | hi lo rest IH] using string_pair_ind; intros b.
  - intros _ [= <-]. reflexivity.
  - intros _. discriminate.
  - cbn [is_lower_hex]. rewrite !andb_true_iff. intros (Hhi & Hlo & Hrest).
    rewrite unhexlify_cons2.
    destruct (hex_value hi) as [h|] eqn:Eh; [|discriminate].
    destruct (hex_value lo) as [l|] eqn:El; [|discriminate].
    destruct (unhexlify rest) as [bs|]; [|discriminate].
    intros [= <-]. rewrite hexlify_cons.
    destruct (nibbles_of_byte h l (hex_value_range _ _ Eh) (hex_value_range _ _ El))
      as [-> ->].
    rewrite (hex_digit_of_lower hi h Hhi Eh), (hex_digit_of_lower lo l Hlo El).
    by rewrite (IH bs Hrest eq_refl).
Qed.

(** [unhexlify] decodes exactly the texts with an even number of
    hexadecimal digits. *)
Lemma unhexlify_is_Some (s : string) :
  is_Some (unhexlify s) ↔ Nat.even (String.length s) = true ∧ is_hex s = true.
Proof.
  induction s as [| c | hi lo rest IH] using string_pair_ind.
  - split; [done | by eexists].
  - split; [intros [b Hb]; discriminate Hb | intros [Hodd _]; discriminate Hodd].
  - rewrite unhexlify_cons2. cbn [is_hex String.length Nat.even].
    rewrite !andb_true_iff, !bool_decide_eq_true.
    destruct (hex_value hi) as [h|]; [|split; [intros [? [=]] | intros (_ & [? [=]] & _)]].
    destruct (hex_value lo) as [l|]; [|split; [intros [? [=]] | intros (_ & _ & [? [=]] & _)]].
    destruct (unhexlify rest) as [bs|].
    + split; [intros _ | by eexists].
      destruct IH as [IH _]. destruct IH as [He Hh]; [by eexists|].
      repeat split; try done; by eexists.
    + split; [intros [? [=]]|]. intros (He & _ & _ & Hh).
      destruct IH as [_ IH]. destruct IH as [? [=]]. done.
Qed.

(** ** The length of the digest *)

Lemma be_bytes_length (n : nat) (z : Z) : length (be_bytes n z) = n.
Proof. induction n as [|n IH]; simpl; [done | by rewrite IH]. Qed.

Lemma compress_length (h block : list Z) :
  length h = 8%nat → length (compress h block) = 8%nat.
Proof.
  intros Hh. unfold compress. rewrite length_map, length_combine, Hh.
  reflexivity.
Qed.

Lemma blocks_length (fuel : nat) (h w : list Z) :
  length h = 8%nat → length (blocks fuel h w) = 8%nat.
Proof.
  revert h w. induction fuel as [|fuel IH]; intros h w Hh; [done|].
  simpl. destruct w; [done|]. apply IH. by apply compress_length.
Qed.

Lemma flat_map_be_bytes_length (l : list Z) :
  length (flat_map (be_bytes 4) l) = (4 * length l)%nat.
Proof.
  induction l as [|z l IH]; [reflexivity|].
  cbn [flat_map]. rewrite length_app, be_bytes_length, IH. simpl. lia.
Qed.

Lemma digest_has_32_bytes (msg : Bytes) : length (digest msg) = 32%nat.
Proof.
  unfold digest. cbv zeta. rewrite flat_map_be_bytes_length, blocks_length; done.
Qed.

Lemma hexdigest_shape (msg : Bytes) :
  String.length (hexdigest msg) = 64%nat ∧ is_lower_hex (hexdigest msg) = true.
Proof.
  unfold hexdigest. rewrite hexlify_length, digest_has_32_bytes, hexlify_is_lower_hex.
  done.
Qed.

Lemma is_lower_hex_is_hex (s : string) : is_lower_hex s = true → is_hex s = true.
Proof.
  assert (forallb (λ c, implb (is_lower_hex_digit c)
                              (bool_decide (is_Some (hex_value c))))
            (map ascii_of_nat (seq 0 256)) = true) as Hall
    by (vm_compute; reflexivity).
  rewrite forallb_forall in Hall.
  induction s as [|c s IH]; [done|].
  cbn [is_lower_hex is_hex]. rewrite !andb_true_iff. intros [Hc Hs].
  specialize (Hall c (ascii_in_range c)). rewrite Hc in Hall.
  split; [exact Hall | by apply IH].
Qed.

End CodecProofs.

(** * Further properties of the two minting scripts *)

Module MintMoreProofs.
Import Text Py Mint Hex Samples.

(** X5. Whatever text a request to mint.py carries as [certificate_hash]
    (hexadecimal or not, empty or not), the metadata hash of the transaction
    it builds has exactly 32 bytes, and the asset is a single indivisible
    unit named after the event. *)
Theorem mint_api_metadata_hash_has_32_bytes
    (deployer_address : string) (payload_json : NFTPayload → string)
    (nft_payload : NFTPayload) :
  let txn := mint_nft_api deployer_address payload_json nft_payload in
  length (metadata_hash txn) = 32%nat
  ∧ total txn = 1%Z ∧ decimals txn = 0%Z
  ∧ unit_name txn = "POAP"
  ∧ asset_name txn = "POAP-" ++ event nft_payload.
Proof.
  intros txn. split; [apply CodecProofs.digest_has_32_bytes | done].
Qed.

(** X6. mint_nft.py builds a transaction only from metadata whose
    [certificate_hash] is a string with an even number of hexadecimal digits;
    the metadata hash then has half as many bytes as the text has digits, so
    it has the 32 bytes of a digest exactly when the text has 64 digits. *)
Theorem mint_nft_needs_hex_hash
    (deployer_address : string) (json_dumps : dict → string)
    (nft_metadata : dict) (txn : AssetConfigTxn) :
  mint_nft deployer_address json_dumps nft_metadata = Return txn →
  ∃ hex, nft_metadata !! "certificate_hash" = Some (PStr hex)
         ∧ unhexlify hex = Some (metadata_hash txn)
         ∧ is_hex hex = true
         ∧ String.length hex = (2 * length (metadata_hash txn))%nat
         ∧ (length (metadata_hash txn) = 32%nat ↔ String.length hex = 64%nat).
Proof.
  unfold mint_nft, getitem.
  destruct (nft_metadata !! "certificate_hash") as [[| | |hex]|]; simpl;
    try discriminate.
  destruct (unhexlify hex) as [b|] eqn:Hhex; simpl; [|discriminate].
  intros [= <-]. simpl. exists hex.
  pose proof (CodecProofs.unhexlify_length hex b Hhex) as Hlen.
  assert (is_Some (unhexlify hex)) as Hsome by (by eexists).
  apply CodecProofs.unhexlify_is_Some in Hsome as [_ Hdigits].
  repeat split; try done; lia.
Qed.

Lemma mint_nft_needs_hex_hash_witness :
  ∃ hex, sample_metadata !! "certificate_hash" = Some (PStr hex)
         ∧ String.length hex = 64%nat.
Proof.
  destruct (mint_nft_needs_hex_hash "DEPLOYER" (λ _, "{}") sample_metadata
              {| sender := "DEPLOYER"; total := 1; default_frozen := false;
                 unit_name := "POAP"; asset_name := "POAP-RiseHack25-RDS";
                 manager := EmptyString; reserve := EmptyString;
                 freeze := EmptyString; clawback := EmptyString;
                 url := "https://yourapp.example/metadata.json";
                 metadata_hash := default [] (unhexlify sample_hash);
                 note := encode "{}"; decimals := 0 |})
    as (hex & Hkey & _ & _ & _ & Hlen); [vm_compute; reflexivity|].
  exists hex. split; [exact Hkey|]. apply Hlen. vm_compute. reflexivity.
Defined.





End MintMoreProofs.

(** * Further properties of the certificate digest check *)

Module GenCertMoreProofs.
Import Text Py GenCert Hex Samples.

(** The first of the five keys that the details lack. *)
Lemma hash_input_first_missing (details : dict) (k : string) :
  find (λ k, bool_decide (details !! k = None)) digest_keys = Some k →
  hash_input details = Raise (KeyError k).
Proof.
  unfold hash_input, getitem, digest_keys. cbn [find].
  destruct (details !! "event") as [ve|];
    [rewrite bool_decide_eq_false_2 by done
    | rewrite bool_decide_eq_true_2 by done; by intros [= <-]].
  destruct (details !! "organizer") as [vo|];
    [rewrite bool_decide_eq_false_2 by done
    | rewrite bool_decide_eq_true_2 by done; by intros [= <-]].
  destruct (details !! "date") as [vd|];
    [rewrite bool_decide_eq_false_2 by done
    | rewrite bool_decide_eq_true_2 by done; by intros [= <-]].
  destruct (details !! "recipient_name") as [vn|];
    [rewrite bool_decide_eq_false_2 by done
    | rewrite bool_decide_eq_true_2 by done; by intros [= <-]].
  destruct (details !! "recipient_address") as [va|];
    [rewrite bool_decide_eq_false_2 by done
    | rewrite bool_decide_eq_true_2 by done; by intros [= <-]].
  discriminate.
Qed.

(** X9. With a hash to compare and details that are not empty,
    [verify_certificate_hash] raises [KeyError] for the first of event,
    organizer, date, recipient_name, recipient_address that the details lack.
    Without a hash ([None] or the empty string) or without details it
    answers [False] and looks at no field. *)
Theorem verify_certificate_hash_missing_field
    (details : dict) (certificate_hash : value) (k : string) :
  truthy certificate_hash = true →
  details ≠ ∅ →
  find (λ k, bool_decide (details !! k = None)) digest_keys = Some k →
  verify_certificate_hash details certificate_hash = Raise (KeyError k)
  ∧ verify_certificate_hash details PNone = Return false
  ∧ verify_certificate_hash details (PStr EmptyString) = Return false
  ∧ verify_certificate_hash ∅ certificate_hash = Return false.
Proof.
  intros Hhash Hdetails Hmissing. split; [|split; [|split]].
  - unfold verify_certificate_hash, calculated_hash.
    rewrite Hhash, bool_decide_eq_false_2 by done. simpl.
    by rewrite (hash_input_first_missing details k Hmissing).
  - done.
  - done.
  - unfold verify_certificate_hash.
    rewrite (bool_decide_eq_true_2 (∅ = ∅)) by done. by rewrite orb_true_r.
Qed.

Lemma verify_certificate_hash_missing_field_witness :
  verify_certificate_hash (delete "date" sample_details) (PStr "00")
  = Raise (KeyError "date").
Proof.
  apply (verify_certificate_hash_missing_field
           (delete "date" sample_details) (PStr "00") "date");
    [reflexivity | | vm_compute; reflexivity].
  intros Hempty.
  assert (delete "date" sample_details !! "event" = (∅ : dict) !! "event") as Hev
    by (by rewrite Hempty).
  vm_compute in Hev. discriminate Hev.
Defined.

(** X10. [verify_certificate_hash] answers [True] only for a hash that is a
    string of 64 lowercase hexadecimal digits: the same digest spelled with
    capital letters, or cut short, is not accepted. *)
Theorem verify_certificate_hash_accepts_lowercase_only
    (details : dict) (certificate_hash : value) :
  verify_certificate_hash details certificate_hash = Return true →
  ∃ h, certificate_hash = PStr h
       ∧ calculated_hash details = Return h
       ∧ String.length h = 64%nat
       ∧ is_lower_hex h = true.
Proof.
  unfold verify_certificate_hash.
  destruct (negb (truthy certificate_hash) || bool_decide (details = ∅));
    [discriminate|].
  unfold calculated_hash.
  destruct (hash_input details) as [input|e]; simpl; [|discriminate].
  destruct certificate_hash as [| | |h]; simpl; try discriminate.
  intros [= Heq]. apply bool_decide_eq_true in Heq. subst h.
  eexists. split; [reflexivity|]. split; [reflexivity|].
  apply CodecProofs.hexdigest_shape.
Qed.

Lemma verify_certificate_hash_accepts_lowercase_only_witness :
  ∃ h, PStr "bf7871fbc37667d018c6a27a65eb274ec0fad6ef6f395df80108cf2d2d39aed1"
       = PStr h
       ∧ calculated_hash sample_details = Return h
       ∧ String.length h = 64%nat
       ∧ is_lower_hex h = true.
Proof.
  apply (verify_certificate_hash_accepts_lowercase_only sample_details
           (PStr "bf7871fbc37667d018c6a27a65eb274ec0fad6ef6f395df80108cf2d2d39aed1")).
  vm_compute. reflexivity.
Defined.

(** The digest in capital letters is turned down. *)
Example uppercase_digest_is_rejected :
  verify_certificate_hash sample_details
    (PStr "BF7871FBC37667D018C6A27A65EB274EC0FAD6EF6F395DF80108CF2D2D39AED1")
  = Return false.
Proof. vm_compute. reflexivity. Qed.

End GenCertMoreProofs.

(** * Properties of the note reader of verify.py *)

Module VerifyNoteProofs.
Import Text Py Api VerifyNote Samples ReaderSamples.

Lemma scan_transactions_first {J : Type} (codec : Codec J) (asset_id : Z)
    (before : list dict) (tx : dict) (after : list dict) :
  Forall (λ t, is_creation_of asset_id t = false) before →
  is_creation_of asset_id tx = true →
  scan_transactions codec asset_id (before ++ tx :: after)%list
  = note_of_creation_tx codec tx.
Proof.
  intros Hbefore Htx. induction Hbefore as [|t before Ht _ IH]; simpl.
  - by rewrite Htx.
  - by rewrite Ht.
Qed.

(** X11. verify.py reads the note of the first creation transaction the
    indexer lists for the asset and of no other: what follows it does not
    matter, and when it carries no note the answer is [None] even if a later
    creation transaction has one. *)
Theorem first_creation_transaction_decides
    {J : Type} (codec : Codec J)
    (search : Z → nat → result (option (list dict)))
    (asset_id : Z) (before : list dict) (tx : dict) (after : list dict) :
  search asset_id 50%nat = Return (Some (before ++ tx :: after)%list) →
  Forall (λ t, is_creation_of asset_id t = false) before →
  is_creation_of asset_id tx = true →
  extract_note_from_creation_tx codec (Some search) asset_id
    = note_of_creation_tx codec tx
  ∧ (truthy (get tx "note") = false →
     extract_note_from_creation_tx codec (Some search) asset_id = NoteNone).
Proof.
  intros Hsearch Hbefore Htx.
  assert (extract_note_from_creation_tx codec (Some search) asset_id
          = note_of_creation_tx codec tx) as Heq.
  { unfold extract_note_from_creation_tx, get_asset_transactions.
    rewrite Hsearch. simpl. by apply scan_transactions_first. }
  split; [exact Heq|].
  intros Hnote. rewrite Heq. unfold note_of_creation_tx. by rewrite Hnote.
Qed.

Lemma first_creation_transaction_decides_witness :
  extract_note_from_creation_tx sample_codec (Some sample_indexer) 745899830
  = NoteNone.
Proof.
  apply (first_creation_transaction_decides sample_codec sample_indexer 745899830
           [transfer_tx] bare_creation_tx [creation_tx]);
    [reflexivity | repeat constructor | reflexivity | reflexivity].
Defined.

End VerifyNoteProofs.

(** * Properties of scripts/verify_nft.py *)

Module VerifyNftProofs.
Import Text Py Api VerifyNft Samples ReaderSamples.

Section Facts.
Context {J : Type}.
Variable deployer_address : string.
Variable codec : Codec J.
Variable algod_asset_info : Z → result AssetObject.
Variable algod_account_info : string → result AccountInfo.
Variable indexer_client : option (Z → nat → result (option (list dict))).

Lemma verify_poap_structure_never_sets_note
    (info : AssetObject) (expected : option dict) (r : Checks) (q : dict) :
  verify_poap_structure deployer_address codec info expected = Return (r, q) →
  has_note r = false ∧ note_content_valid r = false.
Proof.
  unfold verify_poap_structure. cbv zeta.
  destruct (py_in _ _) as [ok|e]; simpl; [|discriminate].
  by intros [= <- <-].
Qed.

Lemma passed_below_total (r : Checks) :
  has_note r = false → passed_checks r ≠ total_checks r.
Proof.
  destruct r as [[] [] [] [] [] hn []]; simpl; intros ->; vm_compute; discriminate.
Qed.

Lemma structure_returns (info : AssetObject) (expected : option dict) (name : string) :
  get_or (default ∅ (params_of info)) "name" (PStr EmptyString) = PStr name →
  ∃ r, verify_poap_structure deployer_address codec info expected
       = Return (r, default ∅ (params_of info)).
Proof.
  intros Hname. unfold verify_poap_structure. cbv zeta. rewrite Hname.
  by eexists.
Qed.
End Facts.

(** X12. The verifier of verify_nft.py never reports a valid POAP: of its
    seven checks, [has_note] and [note_content_valid] are false in every
    report, so [overall_valid] is false whatever the asset, the expected
    metadata and the holder are. *)
Theorem verify_nft_is_never_valid
    {J : Type} (deployer_address : string) (codec : Codec J)
    (algod_asset_info : Z → result AssetObject)
    (algod_account_info : string → result AccountInfo)
    (indexer_client : option (Z → nat → result (option (list dict))))
    (id : Z) (expected : option dict) (holder : option string) (r : Report J) :
  comprehensive_verification deployer_address codec algod_asset_info
    algod_account_info indexer_client id expected holder = Return (Verified r) →
  overall_valid r = false
  ∧ has_note (verification_results r) = false
  ∧ note_content_valid (verification_results r) = false.
Proof.
  unfold comprehensive_verification.
  destruct (get_asset_info _ _) as [info|]; [|discriminate].
  destruct (is_empty_object info); [discriminate|].
  destruct (verify_poap_structure _ _ _ _) as [[checks q]|e] eqn:Hs; simpl;
    [|discriminate].
  intros [= <-]. simpl.
  destruct (verify_poap_structure_never_sets_note _ _ _ _ _ _ Hs) as [Hn Hc].
  split; [|done].
  apply bool_decide_eq_false_2. by apply passed_below_total.
Qed.

Lemma verify_nft_is_never_valid_witness :
  ∃ r, comprehensive_verification "DEPLOYER" sample_codec (sample_algod "DEPLOYER")
         sample_accounts (Some sample_indexer) 745899830 (Some sample_metadata)
         (Some "HOLDER") = Return (Verified r)
       ∧ verification_results r = mkChecks true true true true true false false
       ∧ holder_info r = Some (Holds (PInt 1) (PBool false))
       ∧ overall_valid r = false.
Proof.
  eexists. split; [vm_compute; reflexivity|]. split; [reflexivity|].
  split; [reflexivity|].
  eapply (verify_nft_is_never_valid "DEPLOYER" sample_codec (sample_algod "DEPLOYER")
            sample_accounts (Some sample_indexer) 745899830 (Some sample_metadata)
            (Some "HOLDER")).
  vm_compute. reflexivity.
Defined.

Section Batch.
Context {J : Type}.
Variable deployer_address : string.
Variable codec : Codec J.
Variable algod_asset_info : Z → result AssetObject.
Variable algod_account_info : string → result AccountInfo.
Variable indexer_client : option (Z → nat → result (option (list dict))).

(** An asset the structure check can read: its name is a string or absent. *)
Definition readable (id : Z) : Prop :=
  ∀ info, algod_asset_info id = Return info →
          ∃ name, get_or (default ∅ (params_of info)) "name" (PStr EmptyString)
                  = PStr name.

Lemma comprehensive_verification_missing (id : Z) (e : exn)
    (expected : option dict) (holder : option string) :
  algod_asset_info id = Raise e →
  comprehensive_verification deployer_address codec algod_asset_info
    algod_account_info indexer_client id expected holder = Return AssetNotFound.
Proof.
  intros Hmissing. unfold comprehensive_verification, get_asset_info.
  by rewrite Hmissing.
Qed.

Lemma comprehensive_verification_returns (id : Z)
    (expected : option dict) (holder : option string) :
  readable id →
  ∃ o, comprehensive_verification deployer_address codec algod_asset_info
         algod_account_info indexer_client id expected holder = Return o.
Proof.
  intros Hread. unfold comprehensive_verification, get_asset_info.
  destruct (algod_asset_info id) as [info|e] eqn:Hinfo; [|by eexists].
  destruct (is_empty_object info); [by eexists|].
  destruct (Hread info Hinfo) as [name Hname].
  destruct (structure_returns deployer_address codec info expected name Hname)
    as [r ->].
  by eexists.
Qed.

Lemma verify_from_reports_missing (i : nat) (asset_ids : list Z)
    (expected_list : option (list (option dict))) :
  Forall readable asset_ids →
  ∃ results,
    verify_from deployer_address codec algod_asset_info algod_account_info
      indexer_client i asset_ids expected_list = Return results
    ∧ length results = length asset_ids
    ∧ ∀ (k : nat) (id : Z) (e : exn),
        asset_ids !! k = Some id → algod_asset_info id = Raise e →
        results !! k = Some AssetNotFound.
Proof.
  intros Hread. revert i.
  induction Hread as [|id rest Hid _ IH]; intros i.
  - exists []. split; [done|]. split; [done|]. intros k id e Hk. done.
  - simpl.
    destruct (comprehensive_verification_returns id
                (match expected_list with
                 | Some l => default None (l !! i)
                 | None => None
                 end) None Hid) as [o Ho].
    rewrite Ho. simpl.
    destruct (IH (S i)) as (results & -> & Hlen & Hmissing). simpl.
    exists (o :: results). split; [done|]. split; [simpl; by rewrite Hlen|].
    intros [|k] id' e Hk Hraise; simpl in *.
    + injection Hk as <-.
      rewrite (comprehensive_verification_missing id e _ _ Hraise) in Ho.
      by injection Ho as <-.
    + by eapply Hmissing.
Qed.
End Batch.

(** X13. The batch of verify_nft.py does not stop at an asset the ledger
    does not know: when the structure check can read every asset that exists
    (its name is a string or absent), [verify_multiple_poaps] returns one
    result per identifier, in order, and the result of every identifier that
    algod does not know is the error object. *)
Theorem verify_nft_batch_reports_missing_assets
    {J : Type} (deployer_address : string) (codec : Codec J)
    (algod_asset_info : Z → result AssetObject)
    (algod_account_info : string → result AccountInfo)
    (indexer_client : option (Z → nat → result (option (list dict))))
    (asset_ids : list Z) (expected_list : option (list (option dict))) :
  Forall (readable algod_asset_info) asset_ids →
  ∃ results,
    verify_multiple_poaps deployer_address codec algod_asset_info
      algod_account_info indexer_client asset_ids expected_list = Return results
    ∧ length results = length asset_ids
    ∧ ∀ (k : nat) (id : Z) (e : exn),
        asset_ids !! k = Some id → algod_asset_info id = Raise e →
        results !! k = Some AssetNotFound.
Proof. intros Hread. by apply verify_from_reports_missing. Qed.

Lemma sample_assets_readable (id : Z) : readable (sample_algod "DEPLOYER") id.
Proof.
  intros info. unfold sample_algod. case_bool_decide; [|discriminate].
  intros [= <-]. by eexists.
Qed.

Lemma verify_nft_batch_reports_missing_assets_witness :
  ∃ results,
    verify_multiple_poaps "DEPLOYER" sample_codec (sample_algod "DEPLOYER")
      sample_accounts (Some sample_indexer) [999%Z; 745899830%Z; 1000%Z] None
    = Return results
    ∧ length results = 3%nat
    ∧ results !! 0%nat = Some AssetNotFound
    ∧ results !! 2%nat = Some AssetNotFound.
Proof.
  destruct (verify_nft_batch_reports_missing_assets "DEPLOYER" sample_codec
              (sample_algod "DEPLOYER") sample_accounts (Some sample_indexer)
              [999%Z; 745899830%Z; 1000%Z] None) as (results & Hr & Hlen & Hmissing).
  { repeat constructor; apply sample_assets_readable. }
  exists results. split; [exact Hr|]. split; [exact Hlen|]. split.
  - apply (Hmissing 0%nat 999%Z (HTTPError "asset does not exist")); reflexivity.
  - apply (Hmissing 2%nat 1000%Z (HTTPError "asset does not exist")); reflexivity.
Defined.

(** X14. [verify_metadata_hash] never raises, and answers [True] exactly
    when the expected metadata has a [certificate_hash] that is hexadecimal
    text and the bytes it denotes are the bytes the base64 metadata hash of
    the asset decodes to; a missing key, text that is not hexadecimal and a
    metadata hash that does not decode all give [False]. *)
Theorem verify_metadata_hash_iff
    {J : Type} (codec : Codec J) (expected : dict) (actual : value) :
  verify_metadata_hash codec expected actual = true
  ↔ ∃ hex b, expected !! "certificate_hash" = Some (PStr hex)
             ∧ unhexlify hex = Some b
             ∧ b64decode codec actual = Return b.
Proof.
  unfold verify_metadata_hash, metadata_hash_matches. split.
  - destruct (expected !! "certificate_hash") as [[| | |hex]|]; simpl;
      try discriminate.
    destruct (unhexlify hex) as [b|] eqn:Hhex; simpl; [|discriminate].
    destruct (b64decode codec actual) as [a|e] eqn:Hactual; simpl; [|discriminate].
    intros Heq. apply bool_decide_eq_true in Heq. subst a.
    by exists hex, b.
  - intros (hex & b & -> & Hhex & Hb64). simpl. rewrite Hhex. simpl.
    rewrite Hb64. simpl. by apply bool_decide_eq_true.
Qed.

(** X15. [compare_metadata] answers [True] exactly when the note is an
    object that has every key of the expected metadata with an equal value;
    keys the note has besides do not matter, and a note that is not an object
    never matches. *)
Theorem compare_metadata_iff
    {J : Type} (note_metadata : parsed J) (expected : dict) :
  compare_metadata note_metadata expected = true
  ↔ ∃ note, note_metadata = Obj note
            ∧ ∀ k v, expected !! k = Some v →
                     ∃ w, note !! k = Some w ∧ py_eq w v = true.
Proof.
  destruct note_metadata as [note|j]; simpl.
  - rewrite forallb_forall. split.
    + intros Hall. exists note. split; [done|]. intros k v Hkv.
      specialize (Hall (k, v)). simpl in Hall.
      destruct (note !! k) as [w|].
      * exists w. split; [done|]. apply Hall.
        apply list_elem_of_In, elem_of_map_to_list. done.
      * discriminate Hall. apply list_elem_of_In, elem_of_map_to_list. done.
    + intros (note' & [= <-] & Hall) [k v] Hin. simpl.
      apply list_elem_of_In, elem_of_map_to_list in Hin.
      destruct (Hall k v Hin) as (w & -> & Hw). done.
  - split; [discriminate | intros (note & Hnote & _); discriminate Hnote].
Qed.

(** X16. For an account that algod knows, [verify_account_holds_asset]
    reports the holding of the first entry of the account's asset list with
    the asset's identifier, with amount 0 and not frozen where the entry
    leaves them out, and reports that the asset is not held exactly when no
    entry has the identifier. *)
Theorem holding_is_first_match
    {J : Type} (codec : Codec J)
    (algod_account_info : string → result AccountInfo)
    (address : string) (asset_id : Z) (info : AccountInfo) :
  algod_account_info address = Return info →
  (verify_account_holds_asset codec algod_account_info address asset_id = NotHeld
   ↔ Forall (λ a, py_eq (get a "asset-id") (PInt asset_id) = false)
            (default [] (assets info)))
  ∧ (∀ before a after,
       default [] (assets info) = (before ++ a :: after)%list →
       Forall (λ a, py_eq (get a "asset-id") (PInt asset_id) = false) before →
       py_eq (get a "asset-id") (PInt asset_id) = true →
       verify_account_holds_asset codec algod_account_info address asset_id
       = Holds (get_or a "amount" (PInt 0)) (get_or a "is-frozen" (PBool false))).
Proof.
  intros Hinfo. unfold verify_account_holds_asset. rewrite Hinfo.
  generalize (default [] (assets info)). intros l. split.
  - induction l as [|a l IH]; simpl.
    + split; [constructor | done].
    + destruct (py_eq (get a "asset-id") (PInt asset_id)) eqn:Ha.
      * split; [discriminate | intros Hall; inversion Hall; congruence].
      * rewrite IH. split; [by constructor | intros Hall; by inversion Hall].
  - intros before a after -> Hbefore Ha.
    induction Hbefore as [|b before Hb _ IH]; simpl; [by rewrite Ha | by rewrite Hb].
Qed.

Lemma holding_is_first_match_witness :
  verify_account_holds_asset sample_codec sample_accounts "HOLDER" 745899830
  = Holds (PInt 1) (PBool false).
Proof.
  destruct (holding_is_first_match sample_codec sample_accounts "HOLDER" 745899830
              (mkAccountInfo (Some (PInt 500000))
                 (Some [<["asset-id" := PInt 7]> (<["amount" := PInt 3]> ∅);
                        <["asset-id" := PInt 745899830]>
                          (<["amount" := PInt 1]> ∅)])))
    as [_ Hfirst]; [reflexivity|].
  etransitivity;
    [apply (Hfirst [<["asset-id" := PInt 7]> (<["amount" := PInt 3]> ∅)]
                   (<["asset-id" := PInt 745899830]> (<["amount" := PInt 1]> ∅)) []);
       [reflexivity | repeat constructor | reflexivity]
    | vm_compute; reflexivity].
Defined.

End VerifyNftProofs.

(** * Properties of the certificate reader of scripts/gen_cert.py *)

Module GenCertDetailsProofs.
Import Text Py Api GenCert GenCertDetails Hex Samples ReaderSamples.

Lemma find_none_Forall {A : Type} (f : A → bool) (l : list A) :
  find f l = None ↔ Forall (λ x, f x = false) l.
Proof.
  induction l as [|x l IH]; simpl; [split; [constructor | done]|].
  destruct (f x) eqn:Hx.
  - split; [discriminate | intros Hall; inversion Hall; congruence].
  - rewrite IH. split; [by constructor | intros Hall; by inversion Hall].
Qed.

Ltac in_keys :=
  unfold digest_keys;
  repeat first [apply list_elem_of_here | apply list_elem_of_further].

Lemma details_of_fields (meta : dict) (k : string) :
  k ∈ digest_keys → details_of meta !! k = Some (get meta k).
Proof.
  unfold digest_keys. intros Hk.
  repeat (apply elem_of_cons in Hk as [-> | Hk]; [by vm_compute|]).
  by apply elem_of_nil in Hk.
Qed.

Lemma hexlify_nonempty (b : Bytes) : b ≠ [] → hexlify b ≠ EmptyString.
Proof. destruct b; [done | discriminate]. Qed.

(** The check that [display_certificate_info] prints for details built from
    metadata with five string fields. *)
Lemma displayed_check_of_fields (id : Z) (h : string) (meta ai : dict)
    (e o d n a : string) :
  h ≠ EmptyString →
  e ≠ unavailable →
  meta !! "event" = Some (PStr e) →
  meta !! "organizer" = Some (PStr o) →
  meta !! "date" = Some (PStr d) →
  meta !! "recipient_name" = Some (PStr n) →
  meta !! "recipient_address" = Some (PStr a) →
  displayed_hash_verification (Extracted id (Some h) (details_of meta) ai meta)
  = Return (Some (bool_decide (spec_digest e o d n a = h))).
Proof.
  intros Hh He Hev Hor Hda Hna Had.
  assert (∀ k v, k ∈ digest_keys → meta !! k = Some v →
                 details_of meta !! k = Some v) as Hfield.
  { intros k v Hk Hv. rewrite (details_of_fields meta k Hk). unfold get.
    by rewrite Hv. }
  assert (details_of meta !! "event" = Some (PStr e)) as Dev
    by (apply Hfield; [in_keys | done]).
  assert (details_of meta !! "organizer" = Some (PStr o)) as Dor
    by (apply Hfield; [in_keys | done]).
  assert (details_of meta !! "date" = Some (PStr d)) as Dda
    by (apply Hfield; [in_keys | done]).
  assert (details_of meta !! "recipient_name" = Some (PStr n)) as Dna
    by (apply Hfield; [in_keys | done]).
  assert (details_of meta !! "recipient_address" = Some (PStr a)) as Dad
    by (apply Hfield; [in_keys | done]).
  unfold displayed_hash_verification, getitem.
  rewrite Dev, Dor, Dda, Dna, Dad. simpl.
  rewrite (bool_decide_eq_false_2 (h = EmptyString)) by done.
  rewrite (bool_decide_eq_false_2 (e = unavailable)) by done. simpl.
  unfold verify_certificate_hash. simpl.
  rewrite (bool_decide_eq_false_2 (h = EmptyString)) by done. simpl.
  rewrite bool_decide_eq_false_2.
  - rewrite (GenCertProofs.calculated_hash_of_fields (details_of meta)
               (PStr e) (PStr o) (PStr d) (PStr n) (PStr a) Dev Dor Dda Dna Dad).
    reflexivity.
  - intros Hempty. rewrite Hempty, lookup_empty in Dev. discriminate Dev.
Qed.

(** The result of the reader when every step of the way succeeds. *)
Lemma get_certificate_details_extracted
    {J : Type} (codec : Codec J)
    (algod_asset_info : Z → result Verify.AssetInfo)
    (indexer_search : Z → result (option (list dict)))
    (id : Z) (info : Verify.AssetInfo) (hash_b64 : value) (hash_bytes : Bytes)
    (txs : list dict) (tx : dict) (txid : string) (note_b64 : value)
    (note_bytes : Bytes) (note_text : string) (meta : dict) :
  algod_asset_info id = Return info →
  default ∅ (Verify.params_of info) !! "metadata-hash" = Some hash_b64 →
  truthy hash_b64 = true →
  b64decode codec hash_b64 = Return hash_bytes →
  indexer_search id = Return (Some txs) →
  find (is_creation_of id) txs = Some tx →
  tx !! "id" = Some (PStr txid) →
  tx !! "note" = Some note_b64 →
  truthy note_b64 = true →
  b64decode codec note_b64 = Return note_bytes →
  decode_utf8 codec note_bytes = Some note_text →
  json_loads codec note_text = Some (Obj meta) →
  get_certificate_details_from_asset_id codec algod_asset_info indexer_search id
    = Extracted id (Some (hexlify hash_bytes)) (details_of meta)
                (asset_basic_info (default ∅ (Verify.params_of info))) meta.
Proof.
  intros Hinfo Hhash Hht Hhd Hsearch Hfind Hid Hnote Hnt Hnd Hutf Hjson.
  unfold get_certificate_details_from_asset_id. rewrite Hinfo. cbv zeta.
  unfold certificate_hash_of, note_metadata, get_or.
  rewrite Hhash. simpl. rewrite Hht, Hhd, Hsearch. simpl.
  rewrite Hfind, Hid, Hnote. simpl. by rewrite Hnt, Hnd, Hutf, Hjson.
Qed.

(** X17. When the asset's metadata hash decodes to bytes and the note of its
    creation transaction decodes to an object with the five fields as
    strings, [get_certificate_details_from_asset_id] returns those fields with
    the hash in hexadecimal, and [display_certificate_info] prints VALID
    exactly when that hexadecimal text is the SHA-256 digest of the five
    fields joined by vertical bars. *)
Theorem certificate_read_back_is_checked
    {J : Type} (codec : Codec J)
    (algod_asset_info : Z → result Verify.AssetInfo)
    (indexer_search : Z → result (option (list dict)))
    (id : Z) (info : Verify.AssetInfo) (hash_b64 : value) (hash_bytes : Bytes)
    (txs : list dict) (tx : dict) (txid : string) (note_b64 : value)
    (note_bytes : Bytes) (note_text : string) (meta : dict)
    (e o d n a : string) :
  algod_asset_info id = Return info →
  default ∅ (Verify.params_of info) !! "metadata-hash" = Some hash_b64 →
  truthy hash_b64 = true →
  b64decode codec hash_b64 = Return hash_bytes →
  hash_bytes ≠ [] →
  indexer_search id = Return (Some txs) →
  find (is_creation_of id) txs = Some tx →
  tx !! "id" = Some (PStr txid) →
  tx !! "note" = Some note_b64 →
  truthy note_b64 = true →
  b64decode codec note_b64 = Return note_bytes →
  decode_utf8 codec note_bytes = Some note_text →
  json_loads codec note_text = Some (Obj meta) →
  meta !! "event" = Some (PStr e) →
  meta !! "organizer" = Some (PStr o) →
  meta !! "date" = Some (PStr d) →
  meta !! "recipient_name" = Some (PStr n) →
  meta !! "recipient_address" = Some (PStr a) →
  e ≠ unavailable →
  get_certificate_details_from_asset_id codec algod_asset_info indexer_search id
    = Extracted id (Some (hexlify hash_bytes)) (details_of meta)
                (asset_basic_info (default ∅ (Verify.params_of info))) meta
  ∧ displayed_hash_verification
      (get_certificate_details_from_asset_id codec algod_asset_info
         indexer_search id)
    = Return (Some (bool_decide (spec_digest e o d n a = hexlify hash_bytes))).
Proof.
  intros Hinfo Hhash Hht Hhd Hne Hsearch Hfind Hid Hnote Hnt Hnd Hutf Hjson
         Hev Hor Hda Hna Had He.
  pose proof (get_certificate_details_extracted codec algod_asset_info
                indexer_search id info hash_b64 hash_bytes txs tx txid note_b64
                note_bytes note_text meta Hinfo Hhash Hht Hhd Hsearch Hfind Hid
                Hnote Hnt Hnd Hutf Hjson) as Hres.
  split; [exact Hres|]. rewrite Hres.
  apply displayed_check_of_fields; try done. by apply hexlify_nonempty.
Qed.

Lemma certificate_read_back_is_checked_witness :
  displayed_hash_verification
    (get_certificate_details_from_asset_id issued_codec issued_algod
       issued_indexer 745899830)
  = Return (Some (bool_decide
      (spec_digest "Rise Hackathon 2025" "University Institute of Technology"
                   "2025-09-16" "Asha Rao" "ADDR"
       = hexlify (default [] (unhexlify
           "bf7871fbc37667d018c6a27a65eb274ec0fad6ef6f395df80108cf2d2d39aed1"))))).
Proof.
  eapply proj2.
  apply (certificate_read_back_is_checked issued_codec issued_algod issued_indexer
           745899830
           (Verify.mkAssetInfo
              (Some (<["metadata-hash" :=
                         PStr "v3hx+8N2Z9AYxqJ6ZesnTsD61u9vOV34AQjPLS05rtE="]>
                       (minted_params "DEPLOYER"))))
           (PStr "v3hx+8N2Z9AYxqJ6ZesnTsD61u9vOV34AQjPLS05rtE=")
           (default [] (unhexlify
              "bf7871fbc37667d018c6a27a65eb274ec0fad6ef6f395df80108cf2d2d39aed1"))
           [issued_creation_tx] issued_creation_tx "TX1" (PStr "e30=")
           (encode "{}") "{}" issued_metadata
           "Rise Hackathon 2025" "University Institute of Technology"
           "2025-09-16" "Asha Rao" "ADDR");
    first [reflexivity | discriminate].
Defined.

(** X18. Minting with mint_nft.py and reading with gen_cert.py agree: for
    metadata whose [certificate_hash] is the digest of its five fields, if the
    ledger gives back the metadata hash and the note that [mint_nft] put in
    the transaction, [display_certificate_info] prints VALID. *)
Theorem minted_certificate_verifies
    {J : Type} (codec : Codec J) (deployer_address : string)
    (json_dumps : dict → string)
    (algod_asset_info : Z → result Verify.AssetInfo)
    (indexer_search : Z → result (option (list dict)))
    (id : Z) (info : Verify.AssetInfo) (hash_b64 : value)
    (txs : list dict) (tx : dict) (txid : string) (note_b64 : value)
    (meta : dict) (e o d n a : string) :
  meta !! "event" = Some (PStr e) →
  meta !! "organizer" = Some (PStr o) →
  meta !! "date" = Some (PStr d) →
  meta !! "recipient_name" = Some (PStr n) →
  meta !! "recipient_address" = Some (PStr a) →
  meta !! "certificate_hash" = Some (PStr (spec_digest e o d n a)) →
  e ≠ unavailable →
  algod_asset_info id = Return info →
  default ∅ (Verify.params_of info) !! "metadata-hash" = Some hash_b64 →
  truthy hash_b64 = true →
  indexer_search id = Return (Some txs) →
  find (is_creation_of id) txs = Some tx →
  tx !! "id" = Some (PStr txid) →
  tx !! "note" = Some note_b64 →
  truthy note_b64 = true →
  (∀ txn, Mint.mint_nft deployer_address json_dumps meta = Return txn →
          b64decode codec hash_b64 = Return (Mint.metadata_hash txn)
          ∧ b64decode codec note_b64 = Return (Mint.note txn)
          ∧ decode_utf8 codec (Mint.note txn) = Some (json_dumps meta)) →
  json_loads codec (json_dumps meta) = Some (Obj meta) →
  (∃ txn, Mint.mint_nft deployer_address json_dumps meta = Return txn)
  ∧ displayed_hash_verification
      (get_certificate_details_from_asset_id codec algod_asset_info
         indexer_search id)
    = Return (Some true).
Proof.
  intros Hev Hor Hda Hna Had Hcert He Hinfo Hhash Hht Hsearch Hfind Hid Hnote
         Hnt Hledger Hjson.
  destruct (CodecProofs.hexdigest_shape
              (encode (e ++ "|" ++ o ++ "|" ++ d ++ "|" ++ n ++ "|" ++ a)))
    as [Hlen Hlower].
  fold (spec_digest e o d n a) in Hlen, Hlower.
  destruct (proj2 (CodecProofs.unhexlify_is_Some (spec_digest e o d n a)))
    as [b Hb].
  { split; [by rewrite Hlen | by apply CodecProofs.is_lower_hex_is_hex]. }
  assert (Mint.mint_nft deployer_address json_dumps meta
          = Return {| Mint.sender := deployer_address; Mint.total := 1;
                      Mint.default_frozen := false; Mint.unit_name := "POAP";
                      Mint.asset_name := "POAP-RiseHack25-RDS";
                      Mint.manager := EmptyString; Mint.reserve := EmptyString;
                      Mint.freeze := EmptyString; Mint.clawback := EmptyString;
                      Mint.url := "https://yourapp.example/metadata.json";
                      Mint.metadata_hash := b;
                      Mint.note := encode (json_dumps meta);
                      Mint.decimals := 0 |}) as Hmint.
  { unfold Mint.mint_nft, getitem. rewrite Hcert. simpl. by rewrite Hb. }
  split; [by eexists|].
  destruct (Hledger _ Hmint) as (Hhd & Hnd & Hutf). simpl in Hhd, Hnd, Hutf.
  assert (b ≠ []) as Hne.
  { intros ->. apply CodecProofs.unhexlify_length in Hb. rewrite Hlen in Hb.
    discriminate Hb. }
  rewrite (get_certificate_details_extracted codec algod_asset_info
             indexer_search id info hash_b64 b txs tx txid note_b64
             (encode (json_dumps meta)) (json_dumps meta) meta) by done.
  rewrite (displayed_check_of_fields id (hexlify b) meta _ e o d n a);
    try done; [|by apply hexlify_nonempty].
  rewrite (CodecProofs.hexlify_unhexlify _ _ Hlower Hb).
  by rewrite bool_decide_eq_true_2.
Qed.

Lemma minted_certificate_verifies_witness :
  displayed_hash_verification
    (get_certificate_details_from_asset_id issued_codec issued_algod
       issued_indexer 745899830)
  = Return (Some true).
Proof.
  eapply proj2.
  apply (minted_certificate_verifies issued_codec "DEPLOYER" (λ _, "{}")
           issued_algod issued_indexer 745899830
           (Verify.mkAssetInfo
              (Some (<["metadata-hash" :=
                         PStr "v3hx+8N2Z9AYxqJ6ZesnTsD61u9vOV34AQjPLS05rtE="]>
                       (minted_params "DEPLOYER"))))
           (PStr "v3hx+8N2Z9AYxqJ6ZesnTsD61u9vOV34AQjPLS05rtE=")
           [issued_creation_tx] issued_creation_tx "TX1" (PStr "e30=")
           issued_metadata "Rise Hackathon 2025"
           "University Institute of Technology" "2025-09-16" "Asha Rao" "ADDR");
    try first [reflexivity | discriminate].
  intros txn Hmint. vm_compute in Hmint. injection Hmint as <-.
  repeat split.
Defined.

Lemma fallback_is_not_checked (id : Z) (h : option string) (ai : dict) :
  displayed_hash_verification (Fallback id h placeholder_details ai) = Return None.
Proof.
  unfold displayed_hash_verification, getitem.
  replace (placeholder_details !! "event") with (Some (PStr unavailable))
    by (vm_compute; reflexivity).
  replace (placeholder_details !! "organizer")
    with (Some (PStr "Data not available")) by (vm_compute; reflexivity).
  replace (placeholder_details !! "date")
    with (Some (PStr "Data not available")) by (vm_compute; reflexivity).
  replace (placeholder_details !! "recipient_name")
    with (Some (PStr "Data not available")) by (vm_compute; reflexivity).
  replace (placeholder_details !! "recipient_address")
    with (Some (PStr "Data not available")) by (vm_compute; reflexivity).
  cbn [bind].
  assert (py_eq (PStr unavailable) (PStr unavailable) = true) as ->
    by (vm_compute; reflexivity).
  by rewrite andb_false_r.
Qed.

(** X19. When the asset exists but the indexer search fails or lists no
    creation transaction for it, [get_certificate_details_from_asset_id]
    still succeeds: it returns the fallback result, which keeps the
    certificate hash read from the asset and fills the details with
    placeholders, and [display_certificate_info] prints no hash verification
    for it. *)
Theorem reader_falls_back_without_creation_tx
    {J : Type} (codec : Codec J)
    (algod_asset_info : Z → result Verify.AssetInfo)
    (indexer_search : Z → result (option (list dict)))
    (id : Z) (info : Verify.AssetInfo) :
  algod_asset_info id = Return info →
  (∃ e, indexer_search id = Raise e)
  ∨ (∃ response, indexer_search id = Return response
                 ∧ Forall (λ tx, is_creation_of id tx = false) (default [] response)) →
  get_certificate_details_from_asset_id codec algod_asset_info indexer_search id
    = Fallback id
        (certificate_hash_of codec (default ∅ (Verify.params_of info)))
        placeholder_details
        (asset_basic_info (default ∅ (Verify.params_of info)))
  ∧ displayed_hash_verification
      (get_certificate_details_from_asset_id codec algod_asset_info
         indexer_search id) = Return None.
Proof.
  intros Hinfo Hsearch.
  assert (note_metadata codec indexer_search id = None) as Hnote.
  { unfold note_metadata.
    destruct Hsearch as [[e ->] | (response & -> & Hnone)]; [done|].
    apply find_none_Forall in Hnone. by rewrite Hnone. }
  assert (get_certificate_details_from_asset_id codec algod_asset_info
            indexer_search id
          = Fallback id
              (certificate_hash_of codec (default ∅ (Verify.params_of info)))
              placeholder_details
              (asset_basic_info (default ∅ (Verify.params_of info)))) as Hres.
  { unfold get_certificate_details_from_asset_id. by rewrite Hinfo, Hnote. }
  split; [exact Hres|]. rewrite Hres. apply fallback_is_not_checked.
Qed.

Lemma reader_falls_back_without_creation_tx_witness :
  get_certificate_details_from_asset_id issued_codec issued_algod
    (λ _, Raise (HTTPError "indexer is down")) 745899830
  = Fallback 745899830
      (Some "bf7871fbc37667d018c6a27a65eb274ec0fad6ef6f395df80108cf2d2d39aed1")
      placeholder_details
      (asset_basic_info
         (<["metadata-hash" := PStr "v3hx+8N2Z9AYxqJ6ZesnTsD61u9vOV34AQjPLS05rtE="]>
            (minted_params "DEPLOYER"))).
Proof.
  etransitivity.
  - eapply proj1.
    apply (reader_falls_back_without_creation_tx issued_codec issued_algod
             (λ _, Raise (HTTPError "indexer is down")) 745899830
             (Verify.mkAssetInfo
                (Some (<["metadata-hash" :=
                           PStr "v3hx+8N2Z9AYxqJ6ZesnTsD61u9vOV34AQjPLS05rtE="]>
                         (minted_params "DEPLOYER")))));
      [reflexivity | left; by eexists].
  - vm_compute. reflexivity.
Defined.

End GenCertDetailsProofs.

(** * Properties of scripts/nft_gen.py *)

Module NftGenProofs.
Import Text Py Api NftGen Hex Samples ReaderSamples.

Lemma unhexlify_app (s1 s2 : string) (b1 : Bytes) :
  unhexlify s1 = Some b1 →
  unhexlify (s1 ++ s2) = (λ b2, (b1 ++ b2)%list) <$> unhexlify s2.
Proof.
  revert b1. induction s1 as [| c | hi lo rest IH] using CodecProofs.string_pair_ind;
    intros b1.
  - intros [= <-]. rewrite VerifyProofs.append_nil. by destruct (unhexlify s2).
  - discriminate.
  - rewrite CodecProofs.unhexlify_cons2, !VerifyProofs.append_cons,
      CodecProofs.unhexlify_cons2.
    destruct (hex_value hi) as [h|]; [|discriminate].
    destruct (hex_value lo) as [l|]; [|discriminate].
    destruct (unhexlify rest) as [bs|]; [|discriminate].
    intros [= <-]. rewrite (IH bs eq_refl).
    by destruct (unhexlify s2).
Qed.

Lemma length_append (s t : string) :
  String.length (s ++ t) = (String.length s + String.length t)%nat.
Proof.
  induction s as [|c s IH]; [done|].
  rewrite VerifyProofs.append_cons. simpl. by rewrite IH.
Qed.

(** The two digits of a recipient number below 100 are one byte. *)
Lemma format_02d_one_byte (i : nat) :
  (i < 100)%nat → ∃ x, unhexlify (format_02d i) = Some [x].
Proof.
  intros Hi.
  assert (forallb (λ i, match unhexlify (format_02d i) with
                        | Some [_] => true
                        | _ => false
                        end) (seq 0 100) = true) as Hall
    by (vm_compute; reflexivity).
  rewrite forallb_forall in Hall.
  specialize (Hall i). destruct (unhexlify (format_02d i)) as [[|x [|? ?]]|];
    try (discriminate Hall; apply in_seq; lia).
  by exists x.
Qed.

(** From 100 to 999 the number has three digits. *)
Lemma format_02d_three_digits (i : nat) :
  (100 <= i < 1000)%nat → String.length (format_02d i) = 3%nat.
Proof.
  intros Hi.
  assert (forallb (λ i, (String.length (format_02d i) =? 3)%nat) (seq 100 900) = true)
    as Hall by (vm_compute; reflexivity).
  rewrite forallb_forall in Hall.
  apply Nat.eqb_eq, Hall, in_seq. lia.
Qed.

(** X20. In a batch the hash of a recipient is not the hash of the
    certificate: for a base [certificate_hash] that is hexadecimal text
    denoting bytes [b], recipient number [i] below 100 gets the bytes [b]
    followed by one more byte (33 bytes for a 32-byte digest), and a
    recipient number from 100 to 999 gets text with an odd number of digits,
    which [unhexlify] refuses. *)
Theorem batch_hash_has_an_extra_byte
    (json_dumps : dict → string) (nft_metadata : dict) (hex : string)
    (b : Bytes) (i : nat) :
  nft_metadata !! "certificate_hash" = Some (PStr hex) →
  unhexlify hex = Some b →
  ∃ unique,
    unique_metadata nft_metadata i = Return unique
    ∧ unique !! "certificate_hash" = Some (PStr (hex ++ format_02d i))
    ∧ unique !! "recipient_number" = Some (PInt (Z.of_nat i))
    ∧ ((i < 100)%nat →
       ∃ x, hash_and_note json_dumps unique
            = Return ((b ++ [x])%list, encode (json_dumps unique))
            ∧ length (b ++ [x])%list = S (length b))
    ∧ ((100 <= i < 1000)%nat →
       hash_and_note json_dumps unique = Raise BinasciiError).
Proof.
  intros Hkey Hhex. unfold unique_metadata, getitem. rewrite Hkey. simpl.
  eexists. split; [reflexivity|].
  split; [by rewrite lookup_insert_eq|].
  split; [by rewrite lookup_insert_ne, lookup_insert_eq|].
  split.
  - intros Hi. destruct (format_02d_one_byte i Hi) as [x Hx]. exists x.
    unfold hash_and_note, getitem. rewrite lookup_insert_eq. simpl.
    rewrite (unhexlify_app hex (format_02d i) b Hhex), Hx. simpl.
    split; [done|]. rewrite length_app. simpl. lia.
  - intros Hi. unfold hash_and_note, getitem. rewrite lookup_insert_eq. simpl.
    destruct (unhexlify (hex ++ format_02d i)) as [b'|] eqn:Hb'; [|done].
    apply CodecProofs.unhexlify_length in Hb'.
    apply CodecProofs.unhexlify_length in Hhex.
    rewrite length_append, (format_02d_three_digits i Hi), Hhex in Hb'. lia.
Qed.

Lemma batch_hash_has_an_extra_byte_witness :
  ∃ unique,
    unique_metadata sample_metadata 7 = Return unique
    ∧ unique !! "certificate_hash" = Some (PStr (sample_hash ++ "07"))
    ∧ ∃ x, hash_and_note (λ _, "{}") unique
           = Return ((default [] (unhexlify sample_hash) ++ [x])%list, encode "{}")
           ∧ length (default [] (unhexlify sample_hash) ++ [x])%list = 33%nat.
Proof.
  destruct (batch_hash_has_an_extra_byte (λ _, "{}") sample_metadata sample_hash
              (default [] (unhexlify sample_hash)) 7)
    as (unique & Hu & Hh & _ & Hlow & _);
    [vm_compute; reflexivity | vm_compute; reflexivity |].
  exists unique. split; [exact Hu|]. split; [exact Hh|].
  apply Hlow. lia.
Defined.

Section Ledger.
Variable W : Type.
Variable SP : Type.
Variable deployer_address : string.
Variable json_dumps : dict → string.
Variable exn_str : exn → string.
Variable float_ok : Z → bool.
Variable account_info : W → string → result AccountInfo.
Variable suggested_params : W → result SP.
Variable create_asset : W → SP → AssetCreate → result (string * dict) * W.
Variable transfer_asset : W → SP → AssetTransfer → result string * W.

Local Abbreviation mint :=
  (mint_and_transfer_poap W SP deployer_address json_dumps exn_str float_ok
     account_info suggested_params create_asset transfer_asset).
Local Abbreviation creation :=
  (create W SP deployer_address json_dumps suggested_params create_asset).
Local Abbreviation opted_in := (check_asset_opt_in W account_info).
Local Abbreviation batch :=
  (batch_from W SP deployer_address json_dumps exn_str float_ok
     account_info suggested_params create_asset transfer_asset).

Lemma mint_cases (md : dict) (address : string) (auto : bool) (w : W) :
  mint md address auto w = (AccountMissing, w)
  ∨ (∃ e w1, creation w md = (Raise e, w1)
             ∧ mint md address auto w
               = (CreateFailed ("Error creating asset: " ++ exn_str e), w1))
  ∨ (∃ txid a w1, creation w md = (Return (txid, a), w1)
       ∧ ((opted_in w1 address a = false ∧ auto = true
           ∧ mint md address auto w = (OptInRequired a txid, w1))
          ∨ ((opted_in w1 address a = true ∨ auto = false)
             ∧ ∃ w2, (mint md address auto w).2 = w2
                     ∧ ((∃ t, (mint md address auto w).1
                              = Minted a txid t address (get md "event"))
                        ∨ (∃ msg, (mint md address auto w).1
                                  = TransferFailed msg a txid))))).
Proof.
  unfold mint_and_transfer_poap.
  destruct (check_account_exists _ _ _ _ _) as [[] balance]; simpl; [|by left].
  right.
  destruct (creation w md) as [[[txid a]|e] w1] eqn:Hc.
  - right. exists txid, a, w1. split; [done|].
    destruct (opted_in w1 address a) eqn:Ho; simpl.
    + right. split; [by left|].
      destruct (transfer _ _ _ _ _ _ _ _) as [[t|e] w2]; exists w2;
        (split; [done|]); [left | right]; by eexists.
    + destruct auto; simpl; [left; done|].
      right. split; [by right|].
      destruct (transfer _ _ _ _ _ _ _ _) as [[t|e] w2]; exists w2;
        (split; [done|]); [left | right]; by eexists.
  - left. by exists e, w1.
Qed.

Lemma creation_without_hash (md : dict) (w : W) (e : exn) :
  hash_and_note json_dumps md = Raise e → creation w md = (Raise e, w).
Proof. intros He. unfold create. by rewrite He. Qed.
End Ledger.

(** X21. [mint_and_transfer_poap] submits nothing and reports a failure
    when the account of the user cannot be read, and when the metadata has no
    [certificate_hash] or one that is not hexadecimal text with an even
    number of digits: the ledger is left as it was found. *)
Theorem nothing_is_submitted_on_bad_input
    (W SP : Type) (deployer_address : string) (json_dumps : dict → string)
    (exn_str : exn → string) (float_ok : Z → bool)
    (account_info : W → string → result AccountInfo)
    (suggested_params : W → result SP)
    (create_asset : W → SP → AssetCreate → result (string * dict) * W)
    (transfer_asset : W → SP → AssetTransfer → result string * W)
    (nft_metadata : dict) (user_address : string) (auto_optin : bool) (w : W) :
  (∃ e, account_info w user_address = Raise e)
  ∨ nft_metadata !! "certificate_hash" = None
  ∨ (∃ hex, nft_metadata !! "certificate_hash" = Some (PStr hex)
            ∧ (Nat.even (String.length hex) = false ∨ is_hex hex = false)) →
  let r := mint_and_transfer_poap W SP deployer_address json_dumps exn_str
             float_ok account_info suggested_params create_asset transfer_asset
             nft_metadata user_address auto_optin w in
  r.2 = w ∧ success r.1 = false.
Proof.
  intros Hbad r. subst r.
  destruct Hbad as [[e He] | Hhash].
  - unfold mint_and_transfer_poap, check_account_exists. by rewrite He.
  - assert (∃ e, hash_and_note json_dumps nft_metadata = Raise e) as [e He].
    { unfold hash_and_note, getitem.
      destruct Hhash as [-> | (hex & -> & Hbad)]; [by eexists|]. simpl.
      destruct (unhexlify hex) as [b|] eqn:Hb; [|by eexists].
      assert (is_Some (unhexlify hex)) as Hsome by (by eexists).
      apply CodecProofs.unhexlify_is_Some in Hsome as [He Hd].
      destruct Hbad; congruence. }
    destruct (mint_cases W SP deployer_address json_dumps exn_str float_ok
                account_info suggested_params create_asset transfer_asset
                nft_metadata user_address auto_optin w)
      as [-> | [(e' & w1 & Hc & ->) | (txid & a & w1 & Hc & _)]]; [done | |];
      rewrite (creation_without_hash W SP deployer_address json_dumps
                 suggested_params create_asset nft_metadata w e He) in Hc.
    + by injection Hc as _ <-.
    + discriminate Hc.
Qed.

Lemma nothing_is_submitted_on_bad_input_witness :
  let r := mint_and_transfer_poap nat unit "DEPLOYER" (λ _, "{}")
             (exn_str sample_codec) small_balance counting_accounts
             (λ _, Return tt) counting_create counting_transfer
             (<["certificate_hash" := PStr "abc"]> sample_metadata) "USER" true
             0%nat in
  r.2 = 0%nat ∧ success r.1 = false.
Proof.
  apply (nothing_is_submitted_on_bad_input nat unit "DEPLOYER" (λ _, "{}")
           (exn_str sample_codec) small_balance counting_accounts
           (λ _, Return tt) counting_create counting_transfer
           (<["certificate_hash" := PStr "abc"]> sample_metadata) "USER" true
           0%nat).
  right. right. exists "abc". split; [vm_compute; reflexivity | left; reflexivity].
Defined.

(** X22. With [auto_optin] (the default), a transfer is attempted only for a
    user whose account already lists the new asset right after its creation;
    for any other user the function stops after the creation: it returns the
    opt-in instructions with the id of the asset it has created, and the
    ledger is as the creation left it. *)
Theorem transfer_needs_opt_in
    (W SP : Type) (deployer_address : string) (json_dumps : dict → string)
    (exn_str : exn → string) (float_ok : Z → bool)
    (account_info : W → string → result AccountInfo)
    (suggested_params : W → result SP)
    (create_asset : W → SP → AssetCreate → result (string * dict) * W)
    (transfer_asset : W → SP → AssetTransfer → result string * W)
    (nft_metadata : dict) (user_address : string) (w : W)
    (txid : string) (asset_id : value) (w1 : W) :
  create W SP deployer_address json_dumps suggested_params create_asset
    w nft_metadata = (Return (txid, asset_id), w1) →
  (check_account_exists W float_ok account_info w user_address).1 = true →
  let r := mint_and_transfer_poap W SP deployer_address json_dumps exn_str
             float_ok account_info suggested_params create_asset transfer_asset
             nft_metadata user_address true w in
  (check_asset_opt_in W account_info w1 user_address asset_id = false →
   r = (OptInRequired asset_id txid, w1))
  ∧ (check_asset_opt_in W account_info w1 user_address asset_id = true →
     r = match transfer W SP deployer_address suggested_params transfer_asset
                 w1 user_address asset_id with
         | (Return t, w2) =>
             (Minted asset_id txid t user_address (get nft_metadata "event"), w2)
         | (Raise e, w2) =>
             (TransferFailed ("Asset created but transfer failed: " ++ exn_str e)
                             asset_id txid, w2)
         end).
Proof.
  intros Hcreate Hexists r. subst r. unfold mint_and_transfer_poap.
  destruct (check_account_exists _ _ _ _ _) as [ex balance]. simpl in Hexists.
  subst ex. simpl. rewrite Hcreate. split; intros ->; simpl; [done|].
  by destruct (transfer _ _ _ _ _ _ _ _) as [[t|e] w2].
Qed.

Lemma transfer_needs_opt_in_witness :
  mint_and_transfer_poap nat unit "DEPLOYER" (λ _, "{}") (exn_str sample_codec)
    small_balance counting_accounts (λ _, Return tt) counting_create
    counting_transfer sample_metadata "USER" true 0%nat
  = (OptInRequired (PInt 1001) "TXC", 1%nat).
Proof.
  eapply (proj1 (transfer_needs_opt_in nat unit "DEPLOYER" (λ _, "{}")
                   (exn_str sample_codec) small_balance counting_accounts
                   (λ _, Return tt) counting_create counting_transfer
                   sample_metadata "USER" 0%nat "TXC" (PInt 1001) 1%nat _ _)).
  Unshelve. all: vm_compute; reflexivity.
Defined.

Lemma batch_from_length
    (W SP : Type) (deployer_address : string) (json_dumps : dict → string)
    (exn_str : exn → string) (float_ok : Z → bool)
    (account_info : W → string → result AccountInfo)
    (suggested_params : W → result SP)
    (create_asset : W → SP → AssetCreate → result (string * dict) * W)
    (transfer_asset : W → SP → AssetTransfer → result string * W)
    (nft_metadata : dict) (base_hash : value) (user_addresses : list string)
    (i : nat) (w : W) :
  nft_metadata !! "certificate_hash" = Some base_hash →
  ∃ results,
    (batch_from W SP deployer_address json_dumps exn_str float_ok account_info
       suggested_params create_asset transfer_asset i nft_metadata
       user_addresses w).1 = Return results
    ∧ length results = length user_addresses.
Proof.
  intros Hkey. revert i w.
  induction user_addresses as [|address rest IH]; intros i w; simpl.
  - by exists [].
  - unfold unique_metadata, getitem. rewrite Hkey. simpl.
    destruct (mint_and_transfer_poap _ _ _ _ _ _ _ _ _ _ _ _ _ _) as [r w1].
    destruct (IH (S i) w1) as (results & Hres & Hlen).
    destruct (batch_from _ _ _ _ _ _ _ _ _ _ _ _ _ _) as [[results'|e] w2];
      simpl in Hres; [|discriminate].
    injection Hres as ->. exists (r :: results). simpl. by rewrite Hlen.
Qed.

(** X23. A batch goes through every recipient: when the base metadata has a
    [certificate_hash], [batch_mint_and_transfer] returns one result per
    address, whatever fails on the way for single recipients; when the key is
    missing and there is a recipient, it raises [KeyError] before anything is
    submitted. *)
Theorem batch_attempts_every_recipient
    (W SP : Type) (deployer_address : string) (json_dumps : dict → string)
    (exn_str : exn → string) (float_ok : Z → bool)
    (account_info : W → string → result AccountInfo)
    (suggested_params : W → result SP)
    (create_asset : W → SP → AssetCreate → result (string * dict) * W)
    (transfer_asset : W → SP → AssetTransfer → result string * W)
    (nft_metadata : dict) (base_hash : value) (user_addresses : list string)
    (w : W) :
  nft_metadata !! "certificate_hash" = Some base_hash →
  (∃ results,
     (batch_mint_and_transfer W SP deployer_address json_dumps exn_str float_ok
        account_info suggested_params create_asset transfer_asset nft_metadata
        user_addresses w).1 = Return results
     ∧ length results = length user_addresses)
  ∧ (∀ address rest,
       batch_mint_and_transfer W SP deployer_address json_dumps exn_str float_ok
         account_info suggested_params create_asset transfer_asset
         (delete "certificate_hash" nft_metadata) (address :: rest) w
       = (Raise (KeyError "certificate_hash"), w)).
Proof.
  intros Hkey. split.
  - by eapply batch_from_length.
  - intros address rest. unfold batch_mint_and_transfer. simpl.
    unfold unique_metadata, getitem. by rewrite lookup_delete_eq.
Qed.

Lemma batch_attempts_every_recipient_witness :
  ∃ results,
    (batch_mint_and_transfer nat unit "DEPLOYER" (λ _, "{}")
       (exn_str sample_codec) small_balance counting_accounts (λ _, Return tt)
       counting_create counting_transfer sample_metadata
       ["NOBODY"; "USER"; "USER"] 0%nat).1 = Return results
    ∧ length results = 3%nat.
Proof.
  eapply proj1.
  apply (batch_attempts_every_recipient nat unit "DEPLOYER" (λ _, "{}")
           (exn_str sample_codec) small_balance counting_accounts
           (λ _, Return tt) counting_create counting_transfer sample_metadata
           (PStr sample_hash) ["NOBODY"; "USER"; "USER"] 0%nat).
  vm_compute. reflexivity.
Defined.

(** What the sample batch gives: the first recipient has no account, the
    others do, and their assets are created (with 33-byte hashes) but not
    transferred. *)
Example sample_batch :
  batch_mint_and_transfer nat unit "DEPLOYER" (λ _, "{}")
    (exn_str sample_codec) small_balance counting_accounts (λ _, Return tt)
    counting_create counting_transfer sample_metadata
    ["NOBODY"; "USER"; "USER"] 0%nat
  = (Return [AccountMissing; OptInRequired (PInt 1001) "TXC";
             OptInRequired (PInt 1001) "TXC"], 2%nat).
Proof. vm_compute. reflexivity. Qed.

End NftGenProofs.

(** * The digest and the delimiter *)

Module DelimiterProofs.
Import Text Py GenCert Hex Samples.

Lemma bar_append (s r : string) : s ++ "|" ++ r = s ++ String "|" r.
Proof. reflexivity. Qed.

Lemma append_assoc (s t u : string) : (s ++ t) ++ u = s ++ t ++ u.
Proof.
  induction s as [|c s IH]; [done|].
  by rewrite !VerifyProofs.append_cons, IH.
Qed.

(** A text without a bar, then a bar, then the rest: read in one way only. *)
Lemma split_at_bar (s1 s2 r1 r2 : string) :
  bar_free s1 = true → bar_free s2 = true →
  s1 ++ String "|" r1 = s2 ++ String "|" r2 →
  s1 = s2 ∧ r1 = r2.
Proof.
  revert s2. induction s1 as [|c s1 IH]; intros [|c' s2]; cbn [bar_free];
    rewrite ?andb_true_iff, ?negb_true_iff, ?bool_decide_eq_false;
    rewrite ?VerifyProofs.append_nil, ?VerifyProofs.append_cons.
  - intros _ _ [= ->]. done.
  - intros _ [Hc _] [= <- _]. done.
  - intros [Hc _] _ [= -> _]. done.
  - intros [_ H1] [_ H2] [= -> Heq]. destruct (IH s2 H1 H2 Heq) as [-> ->]. done.
Qed.

Lemma hash_input_of_strings (details : dict) (e o d n a : string) :
  details !! "event" = Some (PStr e) →
  details !! "organizer" = Some (PStr o) →
  details !! "date" = Some (PStr d) →
  details !! "recipient_name" = Some (PStr n) →
  details !! "recipient_address" = Some (PStr a) →
  hash_input details
  = Return (e ++ "|" ++ o ++ "|" ++ d ++ "|" ++ n ++ "|" ++ a).
Proof.
  intros He Ho Hd Hn Ha. unfold hash_input, getitem.
  by rewrite He, Ho, Hd, Hn, Ha.
Qed.

(** X24. When event, organizer, date and recipient name contain no vertical
    bar, the text that is hashed determines the five fields: two certificates
    with the same hash input have the same event, organizer, date, recipient
    name and recipient address. *)
Theorem hash_input_determines_fields
    (details1 details2 : dict) (e1 o1 d1 n1 a1 e2 o2 d2 n2 a2 : string) :
  details1 !! "event" = Some (PStr e1) →
  details1 !! "organizer" = Some (PStr o1) →
  details1 !! "date" = Some (PStr d1) →
  details1 !! "recipient_name" = Some (PStr n1) →
  details1 !! "recipient_address" = Some (PStr a1) →
  details2 !! "event" = Some (PStr e2) →
  details2 !! "organizer" = Some (PStr o2) →
  details2 !! "date" = Some (PStr d2) →
  details2 !! "recipient_name" = Some (PStr n2) →
  details2 !! "recipient_address" = Some (PStr a2) →
  bar_free e1 && bar_free o1 && bar_free d1 && bar_free n1 = true →
  bar_free e2 && bar_free o2 && bar_free d2 && bar_free n2 = true →
  hash_input details1 = hash_input details2 →
  e1 = e2 ∧ o1 = o2 ∧ d1 = d2 ∧ n1 = n2 ∧ a1 = a2.
Proof.
  intros He1 Ho1 Hd1 Hn1 Ha1 He2 Ho2 Hd2 Hn2 Ha2 Hfree1 Hfree2.
  rewrite (hash_input_of_strings details1 e1 o1 d1 n1 a1) by done.
  rewrite (hash_input_of_strings details2 e2 o2 d2 n2 a2) by done.
  rewrite !andb_true_iff in Hfree1, Hfree2.
  destruct Hfree1 as [[[Fe1 Fo1] Fd1] Fn1], Hfree2 as [[[Fe2 Fo2] Fd2] Fn2].
  intros [= Heq]. rewrite !bar_append in Heq.
  apply split_at_bar in Heq as [-> Heq]; [|done..].
  apply split_at_bar in Heq as [-> Heq]; [|done..].
  apply split_at_bar in Heq as [-> Heq]; [|done..].
  apply split_at_bar in Heq as [-> ->]; done.
Qed.

Lemma hash_input_determines_fields_witness :
  "Rise Hackathon 2025" = "Rise Hackathon 2025"
  ∧ "University Institute of Technology" = "University Institute of Technology"
  ∧ "2025-09-16" = "2025-09-16" ∧ "Asha Rao" = "Asha Rao" ∧ "ADDR" = "ADDR".
Proof.
  apply (hash_input_determines_fields sample_details
           (<["issued_at" := PStr "2025-09-17"]> sample_details)
           "Rise Hackathon 2025" "University Institute of Technology"
           "2025-09-16" "Asha Rao" "ADDR"
           "Rise Hackathon 2025" "University Institute of Technology"
           "2025-09-16" "Asha Rao" "ADDR");
    vm_compute; reflexivity.
Defined.

(** X25. The delimiter is not escaped: moving a vertical bar from the end of
    the event to the start of the organizer gives another certificate with
    the same hash input, hence the same digest, and
    [verify_certificate_hash] gives the same answer for both. *)
Theorem bar_in_a_field_collides
    (details : dict) (e x o : string) (certificate_hash : value) :
  let left := <["event" := PStr (e ++ "|" ++ x)]>
                (<["organizer" := PStr o]> details) in
  let right := <["event" := PStr e]>
                 (<["organizer" := PStr (x ++ "|" ++ o)]> details) in
  left !! "event" ≠ right !! "event"
  ∧ hash_input left = hash_input right
  ∧ calculated_hash left = calculated_hash right
  ∧ verify_certificate_hash left certificate_hash
    = verify_certificate_hash right certificate_hash.
Proof.
  intros left right.
  assert (hash_input left = hash_input right) as Hin.
  { unfold hash_input, getitem, left, right.
    rewrite !lookup_insert_eq.
    rewrite !(lookup_insert_ne _ "event" "organizer") by done.
    rewrite !lookup_insert_eq.
    rewrite !(lookup_insert_ne _ "event") by done.
    rewrite !(lookup_insert_ne _ "organizer") by done.
    destruct (details !! "date") as [vd|]; [|done].
    destruct (details !! "recipient_name") as [vn|]; [|done].
    destruct (details !! "recipient_address") as [va|]; [|done].
    simpl. f_equal.
    by rewrite !append_assoc. }
  assert (calculated_hash left = calculated_hash right) as Hcalc
    by (unfold calculated_hash; by rewrite Hin).
  split; [|split; [done|split; [done|]]].
  - unfold left, right. rewrite !lookup_insert_eq. intros [= Heq].
    assert (String.length (e ++ "|" ++ x) = String.length e) as Hlen
      by (by rewrite Heq).
    rewrite !NftGenProofs.length_append in Hlen. simpl in Hlen. lia.
  - unfold verify_certificate_hash. rewrite Hcalc.
    assert (bool_decide (left = ∅) = false ∧ bool_decide (right = ∅) = false)
      as [-> ->]; [|done].
    split; apply bool_decide_eq_false_2; intros Hempty;
      [assert (left !! "event" = None) as Hnone by (by rewrite Hempty)
      |assert (right !! "event" = None) as Hnone by (by rewrite Hempty)];
      unfold left, right in Hnone; by rewrite lookup_insert_eq in Hnone.
Qed.

End DelimiterProofs.

(** * Further properties of the routes of verify.py *)

Module VerifyRouteProofs.
Import Text Py Verify Samples.

(** The structure check on an object that has no ["params"]. *)
Lemma verify_poap_structure_without_params (deployer_address : string) :
  verify_poap_structure deployer_address (mkAssetInfo None)
  = Return (mkChecks false false false false, ∅).
Proof. reflexivity. Qed.

(** What the route answers once it has the asset information. *)
Lemma verify_poap_with_info
    {Note : Type} (deployer_address : string) (clients : Clients Note)
    (id : Z) (info : AssetInfo) :
  algod_asset_info clients id = Return info
  ∨ ((∃ e, algod_asset_info clients id = Raise e)
     ∧ ∃ ix, indexer_client clients = Some ix ∧ ix id = Return info) →
  verify_poap deployer_address clients id
  = match verify_poap_structure deployer_address info with
    | Return rp =>
        Return (VerifyResponse id rp.1 (extract_note_from_creation_tx clients id)
                               (overall_valid rp.1))
    | Raise e => Raise e
    end.
Proof.
  unfold verify_poap.
  intros [-> | ([e ->] & ix & -> & ->)];
    by destruct (verify_poap_structure deployer_address info).
Qed.

(** X26. [POST /verify] answers with the error object exactly when algod
    raises for the asset and the indexer is absent or raises too; the object
    then carries the asked identifier and the text "asset does not exist on
    TestNet". *)
Theorem verify_route_error_iff
    {Note : Type} (deployer_address : string) (clients : Clients Note)
    (id id' : Z) (msg : string) :
  verify_poap deployer_address clients id = Return (ErrorResponse id' msg)
  ↔ id' = id ∧ msg = "asset does not exist on TestNet"
    ∧ (∃ e, algod_asset_info clients id = Raise e)
    ∧ (indexer_client clients = None
       ∨ ∃ ix e2, indexer_client clients = Some ix ∧ ix id = Raise e2).
Proof.
  split.
  - unfold verify_poap.
    destruct (algod_asset_info clients id) as [info|e] eqn:Halgod.
    + destruct (verify_poap_structure deployer_address info); discriminate.
    + destruct (indexer_client clients) as [ix|] eqn:Hix.
      * destruct (ix id) as [info|e2] eqn:Hixid.
        -- destruct (verify_poap_structure deployer_address info); discriminate.
        -- intros [= <- <-]. repeat split; [by eexists|].
           right. by exists ix, e2.
      * intros [= <- <-]. repeat split; [by eexists | by left].
  - intros (-> & -> & [e He] & Hix). unfold verify_poap. rewrite He.
    destruct Hix as [-> | (ix & e2 & -> & ->)]; done.
Qed.

(** X27. When algod raises for the asset and the route takes the answer of
    the indexer, an answer without a ["params"] key at its top makes every
    check fail: the route reports the four checks as false and the asset as
    not valid, without an exception. *)
Theorem verify_route_without_params
    {Note : Type} (deployer_address : string) (clients : Clients Note)
    (id : Z) (e : exn) (ix : Z → result AssetInfo) (info : AssetInfo) :
  algod_asset_info clients id = Raise e →
  indexer_client clients = Some ix →
  ix id = Return info →
  params_of info = None →
  verify_poap deployer_address clients id
  = Return (VerifyResponse id (mkChecks false false false false)
                           (extract_note_from_creation_tx clients id) false).
Proof.
  intros Halgod Hix Hinfo Hparams.
  rewrite (verify_poap_with_info deployer_address clients id info).
  - destruct info as [p]. simpl in Hparams. subst p.
    by rewrite verify_poap_structure_without_params.
  - right. split; [by eexists | by exists ix].
Qed.

Lemma verify_route_without_params_witness :
  verify_poap "DEPLOYER"
    {| algod_asset_info := λ _, Raise (HTTPError "asset does not exist");
       indexer_client := indexer_client (one_asset_ledger "DEPLOYER");
       extract_note_from_creation_tx := λ _, PNone |}
    745899830
  = Return (VerifyResponse 745899830 (mkChecks false false false false) PNone false).
Proof.
  apply (verify_route_without_params "DEPLOYER"
           {| algod_asset_info := λ _, Raise (HTTPError "asset does not exist");
              indexer_client := indexer_client (one_asset_ledger "DEPLOYER");
              extract_note_from_creation_tx := λ _, PNone |}
           745899830
           (HTTPError "asset does not exist")
           (λ asset_id,
              if bool_decide (asset_id = 745899830%Z)
              then Return (mkAssetInfo None)
              else Raise (HTTPError "no asset found for asset-id"))
           (mkAssetInfo None)); reflexivity.
Defined.

End VerifyRouteProofs.
